(** * glass3k: the task scheduler and its SQLite store

    A shallow embedding of [task_scheduler.py] and [database.py]: the task
    life cycle ([TaskStatus], [update_task_status], [execute_task]), the
    polling dispatch ([_check_and_execute_tasks]) and the durable store
    ([DatabaseManager]), followed by the properties of the specification
    that bear on them.

    Conventions of the embedding.
    - Python [int] is [Z]; [str] is [string]; [Optional[T]] is [option T].
    - A Python exception is the value [Raise e] of the result type [Res];
      [try/except Exception] is [try_except], [try/finally] is [finally].
      [print] has no counterpart.
    - [datetime.now()] is an argument of the function that reads the clock,
      one argument for each read.
    - The outcome of each sqlite3 call (connect, execute, commit) is scripted
      by the [faults] of the database, so that a theorem quantifies over the
      storage failures the code may meet.
    - The outcome of each iteration of a worker (what [run_workflow] and
      [asave_result_to_file] do) is given by the [Worker].
    - [Thread(...).start()] adds the thread to the threads of the process
      and returns; the thread runs later ([run_thread]), on the state it
      then finds.
    - The constructors and [migrate_from_json], which read JSON files, are
      left out; of the [schedule] module only the registry of jobs is kept.

    Of the code around the two files the embedding also has
    [format_datetime] of the task page, [randomizer.py] (what [random] will
    draw is a state of its own) and [asave_result_to_file] of [utils.py]
    (the files of the machine are a map from paths to texts). *)

From stdpp Require Import gmap strings list fin_maps pretty sorting.
From Stdlib Require Import ZArith Lia Ascii.

Open Scope Z_scope.

(* ===================================================================== *)
(** * Exceptions *)
(* ===================================================================== *)

(** The result of a Python computation: a value, or a raised [Exception]
    carrying its message [str(e)]. *)
Inductive Res (A : Type) : Type :=
| Ok (a : A)
| Raise (e : string).
Arguments Ok {A} a.
Arguments Raise {A} e.

Definition res_bind {A B} (r : Res A) (k : A -> Res B) : Res B :=
  match r with
  | Ok a => k a
  | Raise e => Raise e
  end.

(* ===================================================================== *)
(** * The part of Python's [datetime] the program uses *)
(* ===================================================================== *)

(** Naive datetimes of the years 1..9999, after the reference
    implementation of the standard library ([_ymd2ord], [_ord2ymd],
    [__add__], [isoformat]). *)

Module Datetime.

(** A naive [datetime]: its seven fields. *)
Record datetime := mk_datetime {
  year : Z; month : Z; day : Z;
  hour : Z; minute : Z; second : Z; microsecond : Z
}.

Definition MINYEAR : Z := 1.
Definition MAXYEAR : Z := 9999.
Definition _MAXORDINAL : Z := 3652059.

Definition _DAYS_IN_MONTH : list Z :=
  [-1; 31; 28; 31; 30; 31; 30; 31; 31; 30; 31; 30; 31].
Definition _DAYS_BEFORE_MONTH : list Z :=
  [-1; 0; 31; 59; 90; 120; 151; 181; 212; 243; 273; 304; 334].

Definition _is_leap (y : Z) : bool :=
  (y mod 4 =? 0) && (negb (y mod 100 =? 0) || (y mod 400 =? 0)).

Definition _days_before_year (y : Z) : Z :=
  let y := y - 1 in y * 365 + y / 4 - y / 100 + y / 400.

Definition _days_in_month (y m : Z) : Z :=
  if (m =? 2) && _is_leap y then 29
  else nth (Z.to_nat m) _DAYS_IN_MONTH (-1).

Definition _days_before_month (y m : Z) : Z :=
  nth (Z.to_nat m) _DAYS_BEFORE_MONTH (-1)
  + (if (2 <? m) && _is_leap y then 1 else 0).

Definition _ymd2ord (y m d : Z) : Z :=
  _days_before_year y + _days_before_month y m + d.

Definition _DI400Y : Z := 146097.
Definition _DI100Y : Z := 36524.
Definition _DI4Y : Z := 1461.

(** Ordinal (1 is 0001-01-01) to (year, month, day). *)
Definition _ord2ymd (n : Z) : Z * Z * Z :=
  let n := n - 1 in
  let n400 := n / _DI400Y in
  let n := n mod _DI400Y in
  let year := n400 * 400 + 1 in
  let n100 := n / _DI100Y in
  let n := n mod _DI100Y in
  let n4 := n / _DI4Y in
  let n := n mod _DI4Y in
  let n1 := n / 365 in
  let n := n mod 365 in
  let year := year + n100 * 100 + n4 * 4 + n1 in
  if (n1 =? 4) || (n100 =? 4) then (year - 1, 12, 31)
  else
    let leapyear := (n1 =? 3) && (negb (n4 =? 24) || (n100 =? 3)) in
    let month := Z.shiftr (n + 50) 5 in
    let preceding :=
      nth (Z.to_nat month) _DAYS_BEFORE_MONTH (-1)
      + (if (2 <? month) && leapyear then 1 else 0) in
    if n <? preceding then
      let month := month - 1 in
      let preceding :=
        preceding - (nth (Z.to_nat month) _DAYS_IN_MONTH (-1)
                     + (if (month =? 2) && leapyear then 1 else 0)) in
      (year, month, n - preceding + 1)
    else (year, month, n - preceding + 1).

(** The constructor's range check ([ValueError] otherwise). *)
Definition valid (d : datetime) : bool :=
  (MINYEAR <=? year d) && (year d <=? MAXYEAR)
  && (1 <=? month d) && (month d <=? 12)
  && (1 <=? day d) && (day d <=? _days_in_month (year d) (month d))
  && (0 <=? hour d) && (hour d <=? 23)
  && (0 <=? minute d) && (minute d <=? 59)
  && (0 <=? second d) && (second d <=? 59)
  && (0 <=? microsecond d) && (microsecond d <=? 999999).

(** ** [timedelta]: a duration, in microseconds *)

Definition US_PER_SECOND : Z := 1000000.
Definition US_PER_DAY : Z := 86400 * US_PER_SECOND.

(** [timedelta(days=d, hours=h, minutes=m)]; [OverflowError] when the
    normalised day count exceeds 999999999 in magnitude. *)
Definition timedelta (days hours minutes : Z) : Res Z :=
  let us := ((days * 24 + hours) * 60 + minutes) * 60 * US_PER_SECOND in
  if Z.abs (us / US_PER_DAY) <=? 999999999 then Ok us
  else Raise "OverflowError: days; must have magnitude <= 999999999".

(** The microseconds elapsed since the start of ordinal day 0. *)
Definition to_us (d : datetime) : Z :=
  (((_ymd2ord (year d) (month d) (day d) * 24 + hour d) * 60 + minute d) * 60
   + second d) * US_PER_SECOND + microsecond d.

Definition of_us (t : Z) : datetime :=
  let days := t / US_PER_DAY in
  let rest := t mod US_PER_DAY in
  let secs := rest / US_PER_SECOND in
  let '(y, m, dd) := _ord2ymd days in
  {| year := y; month := m; day := dd;
     hour := secs / 3600; minute := (secs mod 3600) / 60;
     second := secs mod 60; microsecond := rest mod US_PER_SECOND |}.

(** [d + delta] ([datetime.__add__]): through the ordinal, [OverflowError]
    outside years 1..9999. *)
Definition add (d : datetime) (delta : Z) : Res datetime :=
  let t := to_us d + delta in
  let days := t / US_PER_DAY in
  if (0 <? days) && (days <=? _MAXORDINAL) then Ok (of_us t)
  else Raise "OverflowError: date value out of range".

(** [d - delta]. *)
Definition sub (d : datetime) (delta : Z) : Res datetime := add d (- delta).

(** Comparison of two datetimes: field by field, most significant first. *)
Definition fields (d : datetime) : list Z :=
  [year d; month d; day d; hour d; minute d; second d; microsecond d].

Fixpoint cmp_fields (a b : list Z) : comparison :=
  match a, b with
  | [], [] => Eq
  | [], _ :: _ => Lt
  | _ :: _, [] => Gt
  | x :: a', y :: b' =>
      match x ?= y with
      | Eq => cmp_fields a' b'
      | c => c
      end
  end.

Definition _cmp (a b : datetime) : comparison := cmp_fields (fields a) (fields b).

(** [a >= b]. *)
Definition ge (a b : datetime) : bool :=
  match _cmp a b with Lt => false | _ => true end.

(** [a < b]. *)
Definition lt (a b : datetime) : bool :=
  match _cmp a b with Lt => true | _ => false end.

(** ** Formatting *)

Definition digit (n : Z) : ascii := Ascii.ascii_of_N (Z.to_N (48 + n)).

(** ["%0wd" % n] for [0 <= n < 10^w]: exactly [w] decimal digits. *)
Fixpoint zfill (w : nat) (n : Z) : list ascii :=
  match w with
  | O => []
  | S w' => zfill w' (n / 10) ++ [digit (n mod 10)]
  end.

Definition chars (s : string) : list ascii := String.list_ascii_of_string s.
Definition str (l : list ascii) : string := String.string_of_list_ascii l.

(** The fraction of a second: printed only when it is not zero. *)
Definition fraction (us : Z) : list ascii :=
  if us =? 0 then [] else chars "." ++ zfill 6 us.

(** [d.isoformat()]. *)
Definition isoformat (d : datetime) : string :=
  str (zfill 4 (year d) ++ chars "-" ++ zfill 2 (month d) ++ chars "-"
       ++ zfill 2 (day d) ++ chars "T" ++ zfill 2 (hour d) ++ chars ":"
       ++ zfill 2 (minute d) ++ chars ":" ++ zfill 2 (second d)
       ++ fraction (microsecond d)).

(** [d.strftime('%Y%m%d_%H%M')], the year on four digits. *)
Definition strftime_Ymd_HM (d : datetime) : string :=
  str (zfill 4 (year d) ++ zfill 2 (month d) ++ zfill 2 (day d) ++ chars "_"
       ++ zfill 2 (hour d) ++ zfill 2 (minute d)).

(** [d.strftime('%Y%m%d_%H%M%S')]. *)
Definition strftime_Ymd_HMS (d : datetime) : string :=
  str (zfill 4 (year d) ++ zfill 2 (month d) ++ zfill 2 (day d) ++ chars "_"
       ++ zfill 2 (hour d) ++ zfill 2 (minute d) ++ zfill 2 (second d)).

(** [d.strftime('%H:%M')]. *)
Definition strftime_HM (d : datetime) : string :=
  str (zfill 2 (hour d) ++ chars ":" ++ zfill 2 (minute d)).

(** [d.strftime('%H:%M:%S')]. *)
Definition strftime_HMS (d : datetime) : string :=
  str (zfill 2 (hour d) ++ chars ":" ++ zfill 2 (minute d) ++ chars ":"
       ++ zfill 2 (second d)).

(** [d.strftime('%m月%d日 %H:%M')]. *)
Definition strftime_md_HM (d : datetime) : string :=
  str (zfill 2 (month d) ++ chars "月" ++ zfill 2 (day d) ++ chars "日 "
       ++ zfill 2 (hour d) ++ chars ":" ++ zfill 2 (minute d)).

(** ** Parsing *)

Definition digit_val (c : ascii) : option Z :=
  let n := Z.of_N (Ascii.N_of_ascii c) in
  if (48 <=? n) && (n <=? 57) then Some (n - 48) else None.

(** The value of a run of decimal digits. *)
Fixpoint number (acc : Z) (l : list ascii) : option Z :=
  match l with
  | [] => Some acc
  | c :: l' =>
      match digit_val c with
      | Some v => number (acc * 10 + v) l'
      | None => None
      end
  end.

Definition is_char (c : ascii) (s : string) : bool :=
  bool_decide (String c EmptyString = s).

(** [datetime.fromisoformat(s)] on the two shapes [isoformat] writes,
    [YYYY-MM-DDTHH:MM:SS] and [YYYY-MM-DDTHH:MM:SS.ffffff]; any other text,
    or fields out of range, is a [ValueError]. *)
Definition fromisoformat (s : string) : Res datetime :=
  let bad := Raise ("ValueError: Invalid isoformat string: " +:+ s) in
  match chars s with
  | y1 :: y2 :: y3 :: y4 :: s1 :: m1 :: m2 :: s2 :: d1 :: d2 :: sT
    :: h1 :: h2 :: s3 :: n1 :: n2 :: s4 :: c1 :: c2 :: frac =>
      if is_char s1 "-" && is_char s2 "-" && is_char sT "T"
         && is_char s3 ":" && is_char s4 ":" then
        let us :=
          match frac with
          | [] => Some 0
          | p :: ([_; _; _; _; _; _] as f) =>
              if is_char p "." then number 0 f else None
          | _ => None
          end in
        match number 0 [y1; y2; y3; y4], number 0 [m1; m2], number 0 [d1; d2],
              number 0 [h1; h2], number 0 [n1; n2], number 0 [c1; c2], us with
        | Some y, Some m, Some d, Some h, Some n, Some c, Some u =>
            let r := {| year := y; month := m; day := d; hour := h;
                        minute := n; second := c; microsecond := u |} in
            if valid r then Ok r else bad
        | _, _, _, _, _, _, _ => bad
        end
      else bad
  | _ => bad
  end.

(** ** Notions the proofs about formatting use *)

(** Bytewise comparison of two texts, as lists of characters. *)
Fixpoint cmp_chars (a b : list ascii) : comparison :=
  match a, b with
  | [], [] => Eq
  | [], _ :: _ => Lt
  | _ :: _, [] => Gt
  | x :: a', y :: b' =>
      match Ascii.compare x y with
      | Eq => cmp_chars a' b'
      | c => c
      end
  end.

(** Every field fits the width it is printed in. *)
Definition printable (d : datetime) : bool :=
  (0 <=? year d) && (year d <? 10000)
  && (0 <=? month d) && (month d <? 100)
  && (0 <=? day d) && (day d <? 100)
  && (0 <=? hour d) && (hour d <? 100)
  && (0 <=? minute d) && (minute d <? 100)
  && (0 <=? second d) && (second d <? 100)
  && (0 <=? microsecond d) && (microsecond d <? 1000000).

(** The month and day of the [n]-th day (from 0) of a year: the last steps
    of [_ord2ymd]. *)
Definition month_day (n : Z) (leapyear : bool) : Z * Z :=
  let month := Z.shiftr (n + 50) 5 in
  let preceding :=
    nth (Z.to_nat month) _DAYS_BEFORE_MONTH (-1)
    + (if (2 <? month) && leapyear then 1 else 0) in
  if n <? preceding then
    let month := month - 1 in
    let preceding :=
      preceding - (nth (Z.to_nat month) _DAYS_IN_MONTH (-1)
                   + (if (month =? 2) && leapyear then 1 else 0)) in
    (month, n - preceding + 1)
  else (month, n - preceding + 1).

Definition month_day_in_range (n : Z) (leapyear : bool) : bool :=
  let '(m, d) := month_day n leapyear in
  (1 <=? m) && (m <=? 12) && (1 <=? d) && (d <=? 31).

Definition month_day_ordinal_ok (n : Z) (leapyear : bool) : bool :=
  let '(m, d) := month_day n leapyear in
  (nth (Z.to_nat m) _DAYS_BEFORE_MONTH (-1)
   + (if (2 <? m) && leapyear then 1 else 0) + d =? n + 1).

Definition month_day_valid (n : Z) (leapyear : bool) : bool :=
  let '(m, d) := month_day n leapyear in
  (1 <=? m) && (m <=? 12) && (1 <=? d)
  && (d <=? (if (m =? 2) && leapyear then 29
             else nth (Z.to_nat m) _DAYS_IN_MONTH (-1))).

(** The ordinal of the date of a datetime ([toordinal]). *)
Definition ordinal (d : datetime) : Z := _ymd2ord (year d) (month d) (day d).

(** The calendar minute, and the calendar second, of a datetime. *)
Definition minute_slot (d : datetime) : list Z :=
  [year d; month d; day d; hour d; minute d].
Definition second_slot (d : datetime) : list Z :=
  [year d; month d; day d; hour d; minute d; second d].

End Datetime.

(* ===================================================================== *)
(** * Stateful computations that may raise *)
(* ===================================================================== *)

(** A computation over a mutable state [S]: it returns or raises, and the
    state survives an exception. *)
Definition M (S A : Type) : Type := S -> Res A * S.

Definition ret {S A} (a : A) : M S A := fun s => (Ok a, s).

Definition bind {S A B} (m : M S A) (k : A -> M S B) : M S B :=
  fun s =>
    match m s with
    | (Ok a, s') => k a s'
    | (Raise e, s') => (Raise e, s')
    end.

Definition raise {S A} (e : string) : M S A := fun s => (Raise e, s).

(** A pure computation that may raise. *)
Definition lift {S A} (r : Res A) : M S A := fun s => (r, s).

Definition get {S} : M S S := fun s => (Ok s, s).
Definition modify {S} (f : S -> S) : M S unit := fun s => (Ok tt, f s).

(** [try: m except Exception as e: h e]. *)
Definition try_except {S A} (m : M S A) (h : string -> M S A) : M S A :=
  fun s =>
    match m s with
    | (Ok a, s') => (Ok a, s')
    | (Raise e, s') => h e s'
    end.

(** [try: m finally: f]. *)
Definition finally {S A} (m : M S A) (f : M S unit) : M S A :=
  fun s =>
    match m s with
    | (r, s') =>
        match f s' with
        | (Ok _, s'') => (r, s'')
        | (Raise e, s'') => (Raise e, s'')
        end
    end.

Declare Scope py_scope.
Delimit Scope py_scope with py.
Notation "x <- m ;; k" := (bind m (fun x => k))
  (at level 100, m at next level, right associativity) : py_scope.
Notation "m ;; k" := (bind m (fun _ => k))
  (at level 100, right associativity) : py_scope.
Open Scope py_scope.

(* ===================================================================== *)
(** * The data model ([task_scheduler.py]) *)
(* ===================================================================== *)

Inductive TaskStatus := PENDING | RUNNING | COMPLETED | FAILED | CANCELLED.

#[export] Instance TaskStatus_eq_dec : EqDecision TaskStatus.
Proof. solve_decision. Defined.

(** [status.value]: the text stored in the [status] column. *)
Definition value (s : TaskStatus) : string :=
  match s with
  | PENDING => "待运行"
  | RUNNING => "运行中"
  | COMPLETED => "已完成"
  | FAILED => "失败"
  | CANCELLED => "已取消"
  end.

Record ScheduledTask := mk_task {
  id : string;
  name : string;
  scheduled_time : string;
  workflow_count : Z;
  status : TaskStatus;
  created_at : string;
  started_at : option string;
  completed_at : option string;
  success_count : Z;
  error_count : Z;
  error_message : option string
}.

Record SchedulerConfig := mk_config {
  auto_create_enabled : bool;
  auto_create_time : string;
  auto_execute_delay_hours : Z;
  default_workflow_count : Z
}.

(** [SchedulerConfig()]: the hard-coded defaults of the dataclass. *)
Definition default_config : SchedulerConfig :=
  {| auto_create_enabled := true;
     auto_create_time := "18:00";
     auto_execute_delay_hours := 8;
     default_workflow_count := 70 |}.

(* ===================================================================== *)
(** * The store ([database.py]) *)
(* ===================================================================== *)

Module DatabaseManager.

(** A row of [scheduled_tasks], without its primary key [id]. The [status]
    column holds [value s] for the [s] recorded here: [save_task] is its
    only writer. *)
Record Row := mk_row {
  col_name : string;
  col_scheduled_time : string;
  col_workflow_count : Z;
  col_status : TaskStatus;
  col_created_at : string;
  col_started_at : option string;
  col_completed_at : option string;
  col_success_count : Z;
  col_error_count : Z;
  col_error_message : option string
}.

(** The single row (id = 1) of [scheduler_config]. *)
Record ConfigRow := mk_config_row {
  col_config : SchedulerConfig;
  col_updated_at : string
}.

(** The two tables, as the database file or an open connection holds them.
    [scheduled_tasks] is keyed by its [TEXT PRIMARY KEY]. *)
Record Tables := mk_tables {
  scheduled_tasks : gmap string Row;
  scheduler_config : option ConfigRow
}.

(** The database file, with the outcome of the sqlite3 calls to come:
    [Some e] makes the next call raise [e], [None] lets it succeed, and
    every call succeeds once the script is used up. *)
Record Database := mk_database {
  disk : Tables;
  faults : list (option string)
}.

Definition row_of (task : ScheduledTask) : Row :=
  {| col_name := name task;
     col_scheduled_time := scheduled_time task;
     col_workflow_count := workflow_count task;
     col_status := status task;
     col_created_at := created_at task;
     col_started_at := started_at task;
     col_completed_at := completed_at task;
     col_success_count := success_count task;
     col_error_count := error_count task;
     col_error_message := error_message task |}.

(** [ScheduledTask(id=row['id'], ...)]; on an integer,
    [row['success_count'] or 0] is the integer. *)
Definition task_of (key : string) (row : Row) : ScheduledTask :=
  {| id := key;
     name := col_name row;
     scheduled_time := col_scheduled_time row;
     workflow_count := col_workflow_count row;
     status := col_status row;
     created_at := col_created_at row;
     started_at := col_started_at row;
     completed_at := col_completed_at row;
     success_count := col_success_count row;
     error_count := col_error_count row;
     error_message := col_error_message row |}.

(** ** sqlite3 *)

(** One call into sqlite3: it consumes the next scripted outcome. *)
Definition sqlite_call : M Database unit :=
  fun db =>
    match faults db with
    | [] => (Ok tt, db)
    | None :: fs => (Ok tt, {| disk := disk db; faults := fs |})
    | Some e :: fs => (Raise e, {| disk := disk db; faults := fs |})
    end.

(** [with self.get_connection() as conn]: the connection sees the tables
    of the file; what it changes reaches the file on [commit] only. *)
Definition get_connection : M Database Tables :=
  sqlite_call ;; db <- get ;; ret (disk db).

(** [conn.execute(stmt)]: the statement's result on the connection. *)
Definition execute {A} (stmt : A) : M Database A :=
  sqlite_call ;; ret stmt.

(** [conn.commit()]. *)
Definition commit (conn : Tables) : M Database unit :=
  sqlite_call ;; modify (fun db => {| disk := conn; faults := faults db |}).

(** ** The SQL statements *)

Definition with_tasks (conn : Tables) (t : gmap string Row) : Tables :=
  {| scheduled_tasks := t; scheduler_config := scheduler_config conn |}.

(** [INSERT OR REPLACE INTO scheduled_tasks (...) VALUES (...)]. *)
Definition sql_insert_or_replace (task : ScheduledTask) (conn : Tables) : Tables :=
  with_tasks conn (<[id task := row_of task]> (scheduled_tasks conn)).

(** Text comparison of SQLite (BINARY collation): bytewise. *)
Definition text_lt (a b : string) : bool := String.ltb a b.
Definition text_le (a b : string) : bool := String.leb a b.

Definition created_desc (x y : string * Row) : Prop :=
  text_le (col_created_at (snd y)) (col_created_at (snd x)) = true.

#[export] Instance created_desc_dec : RelDecision created_desc.
Proof. intros x y. unfold created_desc. solve_decision. Defined.

(** [SELECT * FROM scheduled_tasks ORDER BY created_at DESC]. *)
Definition sql_select_all (conn : Tables) : list (string * Row) :=
  merge_sort created_desc (map_to_list (scheduled_tasks conn)).

(** [SELECT * FROM scheduled_tasks WHERE id = ?], [fetchone()]. *)
Definition sql_select_by_id (task_id : string) (conn : Tables) : option Row :=
  scheduled_tasks conn !! task_id.

(** [DELETE FROM scheduled_tasks WHERE id = ?]. *)
Definition sql_delete_by_id (task_id : string) (conn : Tables) : Tables :=
  with_tasks conn (delete task_id (scheduled_tasks conn)).

(** [x < ?] on a nullable column: NULL compares to nothing. *)
Definition null_lt (x : option string) (y : string) : bool :=
  match x with
  | Some a => text_lt a y
  | None => false
  end.

Definition is_null (x : option string) : bool :=
  match x with
  | Some _ => false
  | None => true
  end.

(** The [WHERE] clause of [delete_old_tasks]:
    [status IN ('已完成', '失败', '已取消') AND
     (completed_at < ? OR (completed_at IS NULL AND created_at < ?))]. *)
Definition old_task (cutoff_str : string) (row : Row) : bool :=
  bool_decide (value (col_status row) ∈ ["已完成"; "失败"; "已取消"])
  && (null_lt (col_completed_at row) cutoff_str
      || (is_null (col_completed_at row)
          && text_lt (col_created_at row) cutoff_str)).

(** [DELETE FROM scheduled_tasks WHERE ...] of [delete_old_tasks], with its
    [cursor.rowcount]. *)
Definition sql_delete_old (cutoff_str : string) (conn : Tables) : Z * Tables :=
  let kept :=
    filter (fun kr : string * Row => old_task cutoff_str (snd kr) = false)
           (scheduled_tasks conn) in
  (Z.of_nat (size (scheduled_tasks conn)) - Z.of_nat (size kept),
   with_tasks conn kept).

(** [UPDATE scheduler_config SET ... WHERE id = 1]: no row, no change. *)
Definition sql_update_config (config : SchedulerConfig) (now_str : string)
    (conn : Tables) : Tables :=
  {| scheduled_tasks := scheduled_tasks conn;
     scheduler_config :=
       match scheduler_config conn with
       | Some _ => Some {| col_config := config; col_updated_at := now_str |}
       | None => None
       end |}.

(** [INSERT OR IGNORE INTO scheduler_config ... VALUES (1, 1, '18:00', 8, 70, ?)]. *)
Definition sql_insert_default_config (now_str : string) (conn : Tables) : Tables :=
  {| scheduled_tasks := scheduled_tasks conn;
     scheduler_config :=
       match scheduler_config conn with
       | Some r => Some r
       | None => Some {| col_config := default_config; col_updated_at := now_str |}
       end |}.

(** [SELECT status, COUNT( * ) FROM scheduled_tasks GROUP BY status], read
    into a dict. *)
Definition sql_status_counts (conn : Tables) : gmap string Z :=
  foldr (fun (kr : string * Row) (m : gmap string Z) =>
           let k := value (col_status (snd kr)) in
           <[k := default 0 (m !! k) + 1]> m)
        ∅ (map_to_list (scheduled_tasks conn)).

(** [SELECT COUNT( * ) FROM scheduled_tasks WHERE created_at >= ?]. *)
Definition sql_count_recent (since_str : string) (conn : Tables) : Z :=
  Z.of_nat (size (filter (fun kr : string * Row =>
                            text_le since_str (col_created_at (snd kr)) = true)
                         (scheduled_tasks conn))).

(** ** The methods of [DatabaseManager] *)

Definition init_database (now : Datetime.datetime) : M Database unit :=
  conn <- get_connection ;;
  conn <- execute conn ;;
  conn <- execute conn ;;
  conn <- execute (sql_insert_default_config (Datetime.isoformat now) conn) ;;
  commit conn.

Definition save_task (task : ScheduledTask) : M Database bool :=
  try_except
    (conn <- get_connection ;;
     conn <- execute (sql_insert_or_replace task conn) ;;
     commit conn ;;
     ret true)
    (fun e => ret false).

Definition load_tasks : M Database (list ScheduledTask) :=
  try_except
    (conn <- get_connection ;;
     cursor <- execute (sql_select_all conn) ;;
     ret (map (fun kr : string * Row => task_of (fst kr) (snd kr)) cursor))
    (fun e => ret []).

Definition get_task_by_id (task_id : string) : M Database (option ScheduledTask) :=
  try_except
    (conn <- get_connection ;;
     row <- execute (sql_select_by_id task_id conn) ;;
     match row with
     | Some r => ret (Some (task_of task_id r))
     | None => ret None
     end)
    (fun e => ret None).

Definition delete_task (task_id : string) : M Database bool :=
  try_except
    (conn <- get_connection ;;
     conn <- execute (sql_delete_by_id task_id conn) ;;
     commit conn ;;
     ret true)
    (fun e => ret false).

Definition delete_old_tasks (days : Z) (now : Datetime.datetime) : M Database Z :=
  try_except
    (delta <- lift (Datetime.timedelta days 0 0) ;;
     cutoff_date <- lift (Datetime.sub now delta) ;;
     let cutoff_str := Datetime.isoformat cutoff_date in
     conn <- get_connection ;;
     res <- execute (sql_delete_old cutoff_str conn) ;;
     let deleted_count := fst res in
     commit (snd res) ;;
     ret deleted_count)
    (fun e => ret 0).

Definition save_config (config : SchedulerConfig) (now : Datetime.datetime) : M Database bool :=
  try_except
    (conn <- get_connection ;;
     conn <- execute (sql_update_config config (Datetime.isoformat now) conn) ;;
     commit conn ;;
     ret true)
    (fun e => ret false).

Definition load_config : M Database SchedulerConfig :=
  try_except
    (conn <- get_connection ;;
     row <- execute (scheduler_config conn) ;;
     match row with
     | Some r => ret (col_config r)
     | None => ret default_config
     end)
    (fun e => ret default_config).

Record Statistics := mk_statistics {
  total_tasks : Z;
  status_counts : gmap string Z;
  recent_tasks : Z
}.

Definition get_task_statistics (now : Datetime.datetime) : M Database Statistics :=
  try_except
    (conn <- get_connection ;;
     total <- execute (Z.of_nat (size (scheduled_tasks conn))) ;;
     counts <- execute (sql_status_counts conn) ;;
     delta <- lift (Datetime.timedelta 7 0 0) ;;
     week_ago <- lift (Datetime.sub now delta) ;;
     let week_ago_str := Datetime.isoformat week_ago in
     recent <- execute (sql_count_recent week_ago_str conn) ;;
     ret {| total_tasks := total; status_counts := counts;
            recent_tasks := recent |})
    (fun e => ret {| total_tasks := 0; status_counts := ∅; recent_tasks := 0 |}).

End DatabaseManager.


(* ===================================================================== *)
(** * The scheduler ([task_scheduler.py]) *)
(* ===================================================================== *)

Module TaskScheduler.

Import DatabaseManager.

(** A job registered with the [schedule] module. *)
Inductive Job :=
| AutoCreateJob (at_time : string)   (* every().day.at(t).do(_auto_create_task) *)
| CheckJob.                          (* every().minute.do(_check_and_execute_tasks) *)

(** What one iteration of the worker's loop meets. *)
Inductive Outcome :=
| Succeeds                (* run_workflow() and asave_result_to_file() return *)
| Fails (e : string)      (* one of them raises e, caught inside the loop *)
| Escapes (e : string).   (* an exception leaves the loop body *)

(** The surroundings of one run of [execute_task]: the outcome of each
    iteration, and the clock at its two status updates. *)
Record Worker := mk_worker {
  outcome : nat -> Outcome;
  started : Datetime.datetime;
  finished : Datetime.datetime
}.

(** A thread made by [threading.Thread(target=run_task, daemon=True)]. At
    both places that make one, [run_task] is
    [asyncio.run(self.execute_task(task_id))]: the thread is the id it was
    made for, with what its run will meet. *)
Record Thread := mk_thread {
  thread_task_id : string;
  thread_worker : Worker
}.

(** The scheduler object, with the job registry of [schedule], the
    database behind [self.db], and the threads that were started and have
    not run yet. The thread of the polling loop is not among them:
    [_run_scheduler] is its run. *)
Record Scheduler := mk_scheduler {
  is_running : bool;
  current_task_id : option string;
  config : SchedulerConfig;
  jobs : list Job;
  db : Database;
  threads : list Thread
}.

Definition set_is_running (b : bool) (s : Scheduler) : Scheduler :=
  {| is_running := b; current_task_id := current_task_id s;
     config := config s; jobs := jobs s; db := db s; threads := threads s |}.

Definition set_current_task_id (c : option string) (s : Scheduler) : Scheduler :=
  {| is_running := is_running s; current_task_id := c;
     config := config s; jobs := jobs s; db := db s; threads := threads s |}.

Definition set_config (c : SchedulerConfig) (s : Scheduler) : Scheduler :=
  {| is_running := is_running s; current_task_id := current_task_id s;
     config := c; jobs := jobs s; db := db s; threads := threads s |}.

Definition set_jobs (j : list Job) (s : Scheduler) : Scheduler :=
  {| is_running := is_running s; current_task_id := current_task_id s;
     config := config s; jobs := j; db := db s; threads := threads s |}.

Definition set_db (d : Database) (s : Scheduler) : Scheduler :=
  {| is_running := is_running s; current_task_id := current_task_id s;
     config := config s; jobs := jobs s; db := d; threads := threads s |}.

Definition set_threads (l : list Thread) (s : Scheduler) : Scheduler :=
  {| is_running := is_running s; current_task_id := current_task_id s;
     config := config s; jobs := jobs s; db := db s; threads := l |}.

(** A call [self.db.m(...)]. *)
Definition on_db {A} (m : M Database A) : M Scheduler A :=
  fun s => let '(r, d) := m (db s) in (r, set_db d s).

(** [task_thread = threading.Thread(target=run_task, daemon=True)] and
    [task_thread.start()]: the thread joins the threads of the process and
    the starter goes on at once. *)
Definition start_thread (task_id : string) (w : Worker) : M Scheduler unit :=
  modify (fun s => set_threads (threads s ++ [mk_thread task_id w]) s).

Definition load_config : M Scheduler SchedulerConfig :=
  c <- on_db DatabaseManager.load_config ;;
  modify (set_config c) ;;
  ret c.

Definition save_config (now : Datetime.datetime) : M Scheduler bool :=
  s <- get ;;
  on_db (DatabaseManager.save_config (config s) now).

(** ** Starting and stopping the polling loop *)

Definition start_scheduler : M Scheduler unit :=
  s <- get ;;
  if is_running s then ret tt
  else
    modify (set_jobs []) ;;
    (if auto_create_enabled (config s)
     then modify (fun s => set_jobs (jobs s ++ [AutoCreateJob (auto_create_time (config s))]) s)
     else ret tt) ;;
    modify (fun s => set_jobs (jobs s ++ [CheckJob]) s) ;;
    modify (set_is_running true).

Definition stop_scheduler : M Scheduler unit :=
  modify (set_is_running false) ;;
  modify (set_jobs []).

(** One keyword argument of [update_config]; [setattr] is applied to the
    keys the configuration has, any other key is skipped. *)
Inductive ConfigKwarg :=
| kw_auto_create_enabled (v : bool)
| kw_auto_create_time (v : string)
| kw_auto_execute_delay_hours (v : Z)
| kw_default_workflow_count (v : Z)
| kw_unknown (key : string).

Definition setattr (c : SchedulerConfig) (kw : ConfigKwarg) : SchedulerConfig :=
  match kw with
  | kw_auto_create_enabled v =>
      {| auto_create_enabled := v; auto_create_time := auto_create_time c;
         auto_execute_delay_hours := auto_execute_delay_hours c;
         default_workflow_count := default_workflow_count c |}
  | kw_auto_create_time v =>
      {| auto_create_enabled := auto_create_enabled c; auto_create_time := v;
         auto_execute_delay_hours := auto_execute_delay_hours c;
         default_workflow_count := default_workflow_count c |}
  | kw_auto_execute_delay_hours v =>
      {| auto_create_enabled := auto_create_enabled c;
         auto_create_time := auto_create_time c;
         auto_execute_delay_hours := v;
         default_workflow_count := default_workflow_count c |}
  | kw_default_workflow_count v =>
      {| auto_create_enabled := auto_create_enabled c;
         auto_create_time := auto_create_time c;
         auto_execute_delay_hours := auto_execute_delay_hours c;
         default_workflow_count := v |}
  | kw_unknown _ => c
  end.

Definition update_config (kwargs : list ConfigKwarg) (now : Datetime.datetime)
    : M Scheduler unit :=
  modify (fun s => set_config (foldl setattr (config s) kwargs) s) ;;
  save_config now ;;
  s <- get ;;
  if is_running s then stop_scheduler ;; start_scheduler else ret tt.

(** ** Tasks *)

Definition load_tasks : M Scheduler (list ScheduledTask) :=
  on_db DatabaseManager.load_tasks.


(** [create_daily_task(workflow_count)]; [now_exec] and [now_created] are
    its two reads of the clock. *)
Definition create_daily_task (workflow_count : option Z)
    (now_exec now_created : Datetime.datetime) : M Scheduler ScheduledTask :=
  s <- get ;;
  let workflow_count :=
    match workflow_count with
    | None => default_workflow_count (config s)
    | Some n => n
    end in
  delta <- lift (Datetime.timedelta 0 (auto_execute_delay_hours (config s)) 0) ;;
  execute_time <- lift (Datetime.add now_exec delta) ;;
  let task_id := "task_" +:+ Datetime.strftime_Ymd_HM execute_time in
  let task :=
    {| id := task_id;
       name := "定时任务 - " +:+ Datetime.strftime_md_HM execute_time;
       scheduled_time := Datetime.strftime_HM execute_time;
       workflow_count := workflow_count;
       status := PENDING;
       created_at := Datetime.isoformat now_created;
       started_at := None;
       completed_at := None;
       success_count := 0;
       error_count := 0;
       error_message := None |} in
  saved <- on_db (DatabaseManager.save_task task) ;;
  if saved then ret task else raise "保存任务到数据库失败".

Definition create_immediate_task (workflow_count : option Z)
    (now_exec now_created : Datetime.datetime) : M Scheduler ScheduledTask :=
  let workflow_count :=
    match workflow_count with
    | None => 5
    | Some n => n
    end in
  delta <- lift (Datetime.timedelta 0 0 1) ;;
  execute_time <- lift (Datetime.add now_exec delta) ;;
  let task_id := "test_" +:+ Datetime.strftime_Ymd_HMS execute_time in
  let task :=
    {| id := task_id;
       name := "测试任务 - " +:+ Datetime.strftime_HMS execute_time;
       scheduled_time := Datetime.strftime_HM execute_time;
       workflow_count := workflow_count;
       status := PENDING;
       created_at := Datetime.isoformat now_created;
       started_at := None;
       completed_at := None;
       success_count := 0;
       error_count := 0;
       error_message := None |} in
  saved <- on_db (DatabaseManager.save_task task) ;;
  if saved then ret task else raise "保存测试任务到数据库失败".

Record TaskLists := mk_task_lists {
  pending : list ScheduledTask;
  running : list ScheduledTask;
  completed : list ScheduledTask
}.

Definition get_tasks : M Scheduler TaskLists :=
  tasks <- load_tasks ;;
  ret {| pending := filter (fun t => status t = PENDING) tasks;
         running := filter (fun t => status t = RUNNING) tasks;
         completed := filter (fun t => status t ∈ [COMPLETED; FAILED; CANCELLED]) tasks |}.

(** The keyword arguments of [update_task_status]. *)
Record StatusKwargs := mk_kwargs {
  kw_success_count : option Z;
  kw_error_count : option Z;
  kw_error_message : option string
}.

Definition no_kwargs : StatusKwargs :=
  {| kw_success_count := None; kw_error_count := None; kw_error_message := None |}.

(** The assignments of [update_task_status] to the loaded task. *)
Definition with_status (task : ScheduledTask) (st : TaskStatus)
    (kwargs : StatusKwargs) (now : Datetime.datetime) : ScheduledTask :=
  let task :=
    {| id := id task; name := name task; scheduled_time := scheduled_time task;
       workflow_count := workflow_count task; status := st;
       created_at := created_at task; started_at := started_at task;
       completed_at := completed_at task; success_count := success_count task;
       error_count := error_count task; error_message := error_message task |} in
  if bool_decide (st = RUNNING) then
    {| id := id task; name := name task; scheduled_time := scheduled_time task;
       workflow_count := workflow_count task; status := status task;
       created_at := created_at task;
       started_at := Some (Datetime.isoformat now);
       completed_at := completed_at task; success_count := success_count task;
       error_count := error_count task; error_message := error_message task |}
  else if bool_decide (st ∈ [COMPLETED; FAILED]) then
    {| id := id task; name := name task; scheduled_time := scheduled_time task;
       workflow_count := workflow_count task; status := status task;
       created_at := created_at task; started_at := started_at task;
       completed_at := Some (Datetime.isoformat now);
       success_count := default 0 (kw_success_count kwargs);
       error_count := default 0 (kw_error_count kwargs);
       error_message := kw_error_message kwargs |}
  else task.

Definition update_task_status (task_id : string) (st : TaskStatus)
    (kwargs : StatusKwargs) (now : Datetime.datetime) : M Scheduler unit :=
  task <- on_db (DatabaseManager.get_task_by_id task_id) ;;
  match task with
  | None => ret tt
  | Some task =>
      on_db (DatabaseManager.save_task (with_status task st kwargs now)) ;;
      ret tt
  end.

Definition cancel_task (task_id : string) (now : Datetime.datetime) : M Scheduler unit :=
  update_task_status task_id CANCELLED no_kwargs now.

Definition delete_task (task_id : string) : M Scheduler bool :=
  on_db (DatabaseManager.delete_task task_id).

Definition clean_old_tasks (days : Z) (now : Datetime.datetime) : M Scheduler Z :=
  on_db (DatabaseManager.delete_old_tasks days now).

Definition get_task_statistics (now : Datetime.datetime) : M Scheduler Statistics :=
  on_db (DatabaseManager.get_task_statistics now).

(** ** The worker *)

Record Counters := mk_counters {
  n_success : Z;
  n_error : Z;
  error_messages : list string
}.

(** [for i in range(...)], over the values of [i] still to come. *)
Fixpoint run_iterations (w : nat -> Outcome) (range : list nat) (c : Counters)
    : Res Counters :=
  match range with
  | [] => Ok c
  | i :: rest =>
      match w i with
      | Succeeds =>
          run_iterations w rest
            {| n_success := n_success c + 1; n_error := n_error c;
               error_messages := error_messages c |}
      | Fails e =>
          run_iterations w rest
            {| n_success := n_success c; n_error := n_error c + 1;
               error_messages :=
                 error_messages c
                 ++ ["第" +:+ pretty (i + 1)%nat +:+ "次: " +:+ e] |}
      | Escapes e => Raise e
      end
  end.

(** [sep.join(l)]. *)
Fixpoint join (sep : string) (l : list string) : string :=
  match l with
  | [] => ""
  | [x] => x
  | x :: rest => x +:+ sep +:+ join sep rest
  end.

Definition execute_task (task_id : string) (w : Worker) : M Scheduler unit :=
  modify (set_current_task_id (Some task_id)) ;;
  update_task_status task_id RUNNING no_kwargs (started w) ;;
  tasks <- load_tasks ;;
  match find (fun t => String.eqb (id t) task_id) tasks with
  | None => ret tt
  | Some task =>
      finally
        (try_except
           (c <- lift (run_iterations (outcome w)
                         (seq 0 (Z.to_nat (workflow_count task)))
                         {| n_success := 0; n_error := 0; error_messages := [] |}) ;;
            let st := if n_error c =? 0 then COMPLETED else FAILED in
            let error_msg :=
              match error_messages c with
              | [] => None
              | _ :: _ => Some (join "; " (take 3 (error_messages c)))
              end in
            update_task_status task_id st
              {| kw_success_count := Some (n_success c);
                 kw_error_count := Some (n_error c);
                 kw_error_message := error_msg |}
              (finished w))
           (fun e =>
              update_task_status task_id FAILED
                {| kw_success_count := None; kw_error_count := None;
                   kw_error_message := Some e |}
                (finished w)))
        (modify (set_current_task_id None))
  end.

Definition execute_task_immediately (task_id : string) (w : Worker) : M Scheduler unit :=
  start_thread task_id w.

(** The run of the [i]th of the threads started, at the time it gets to
    run: [run_task] calls [execute_task], on the state as it then is, and an
    exception that ends the thread reaches no one. The run is taken in one
    piece; the calls of other threads come before it or after it. *)
Definition run_thread (i : nat) : M Scheduler unit :=
  s <- get ;;
  match threads s !! i with
  | None => ret tt
  | Some t =>
      modify (set_threads (delete i (threads s))) ;;
      try_except (execute_task (thread_task_id t) (thread_worker t))
                 (fun e => ret tt)
  end.

(** ** The polling loop *)

Definition _auto_create_task (now_exec now_created : Datetime.datetime)
    : M Scheduler unit :=
  try_except
    (s <- get ;;
     if auto_create_enabled (config s)
     then task <- create_daily_task None now_exec now_created ;; ret tt
     else ret tt)
    (fun e => ret tt).

(** [task_execute_time] of the dispatch scan. *)
Definition task_execute_time (task : ScheduledTask) (delay_hours : Z)
    : Res Datetime.datetime :=
  res_bind (Datetime.fromisoformat (created_at task)) (fun task_created_time =>
  if String.prefix "test_" (id task) then
    res_bind (Datetime.timedelta 0 0 1) (Datetime.add task_created_time)
  else
    res_bind (Datetime.timedelta 0 delay_hours 0) (Datetime.add task_created_time)).

(** [for task in tasks['pending']]: the first due task gets a worker and
    ends the scan. *)
Fixpoint scan_pending (current_time : Datetime.datetime) (w : Worker)
    (tasks : list ScheduledTask) : M Scheduler unit :=
  match tasks with
  | [] => ret tt
  | task :: rest =>
      s <- get ;;
      task_execute_time <-
        lift (task_execute_time task (auto_execute_delay_hours (config s))) ;;
      if Datetime.ge current_time task_execute_time
      then start_thread (id task) w
      else scan_pending current_time w rest
  end.

Definition _check_and_execute_tasks (current_time : Datetime.datetime) (w : Worker)
    : M Scheduler unit :=
  try_except
    (tasks <- get_tasks ;;
     scan_pending current_time w (pending tasks))
    (fun e => ret tt).

(** One wake of the loop: what the clock and the work will be. *)
Record Tick := mk_tick {
  should_run : Job -> bool;
  now_exec : Datetime.datetime;
  now_created : Datetime.datetime;
  now_check : Datetime.datetime;
  worker : Worker
}.

(** [schedule.run_pending()]: the jobs that are due, run in turn. *)
Fixpoint run_jobs (t : Tick) (js : list Job) : M Scheduler unit :=
  match js with
  | [] => ret tt
  | j :: rest =>
      (if should_run t j then
         match j with
         | AutoCreateJob _ => _auto_create_task (now_exec t) (now_created t)
         | CheckJob => _check_and_execute_tasks (now_check t) (worker t)
         end
       else ret tt) ;;
      run_jobs t rest
  end.

Definition run_pending (t : Tick) : M Scheduler unit :=
  s <- get ;; run_jobs t (jobs s).

(** [_run_scheduler], for the wakes given: [while self.is_running]. *)
Fixpoint _run_scheduler (ticks : list Tick) : M Scheduler unit :=
  match ticks with
  | [] => ret tt
  | t :: rest =>
      s <- get ;;
      if is_running s then run_pending t ;; _run_scheduler rest
      else ret tt
  end.

End TaskScheduler.

(* ===================================================================== *)
(** * The task page ([pages/📅_任务管理.py]) *)
(* ===================================================================== *)

Module TaskPage.



End TaskPage.

(* ===================================================================== *)
(** * Text ([str.split], [str.replace], [int]) *)
(* ===================================================================== *)

Module Str.

Fixpoint starts_with (p l : list ascii) : bool :=
  match p, l with
  | [], _ => true
  | _ :: _, [] => false
  | x :: p', y :: l' => bool_decide (x = y) && starts_with p' l'
  end.

(** [s.split(sep)] for a separator that is not empty: the pieces between
    the occurrences of [sep], found from the left. [skip] counts the
    characters of an occurrence still to pass, [cur] holds the piece being
    read, last character first. *)
Fixpoint split_go (sep : list ascii) (skip : nat) (cur l : list ascii)
    : list (list ascii) :=
  match l with
  | [] => [rev cur]
  | c :: l' =>
      match skip with
      | S k => split_go sep k cur l'
      | O =>
          if starts_with sep l
          then rev cur :: split_go sep (length sep - 1) [] l'
          else split_go sep 0 (c :: cur) l'
      end
  end.

Definition split (sep s : string) : Res (list string) :=
  if String.eqb sep "" then Raise "ValueError: empty separator"
  else Ok (map Datetime.str
             (split_go (Datetime.chars sep) 0 [] (Datetime.chars s))).

(** [s.replace(old, new)] for an [old] that is not empty. *)
Fixpoint replace_go (old new : list ascii) (skip : nat) (l : list ascii)
    : list ascii :=
  match l with
  | [] => []
  | c :: l' =>
      match skip with
      | S k => replace_go old new k l'
      | O =>
          if starts_with old l
          then new ++ replace_go old new (length old - 1) l'
          else c :: replace_go old new 0 l'
      end
  end.

(** With an empty [old], [new] goes before every character and at the end. *)
Definition replace (old new s : string) : string :=
  if String.eqb old ""
  then Datetime.str
         (concat (map (fun c => Datetime.chars new ++ [c]) (Datetime.chars s))
          ++ Datetime.chars new)
  else Datetime.str
         (replace_go (Datetime.chars old) (Datetime.chars new) 0
            (Datetime.chars s)).








End Str.

(* ===================================================================== *)
(** * The random user configuration ([randomizer.py]) *)
(* ===================================================================== *)

Module Randomizer.





(** ** The attributes set by [UserRandomizer.__init__] *)





Definition education_levels : list string :=
  ["高中及以下"; "大专"; "本科"; "研究生及以上"].

Definition work_natures : list string :=
  ["学生"; "办公室工作"; "户外工作"; "创意工作"; "服务业"].





(** ** The methods *)







End Randomizer.

(* ===================================================================== *)
(** * Saving a result ([utils.py]) *)
(* ===================================================================== *)

Module Utils.

(** The fields of [schema.py] that [asave_result_to_file] reads. *)
Record GeneratedContent := mk_generated_content {
  gc_title : string;
  gc_content : string;
  gc_label : list string
}.

Record QualityMaintenance := mk_quality_maintenance {
  qm_title : string;
  qm_content : string;
  qm_label : list string
}.

Record WorkflowResult := mk_workflow_result {
  generated_content : GeneratedContent;
  quality_maintenance : QualityMaintenance;
  generation_timestamp : string
}.

(** The machine the program runs on: its files, whether [aiofiles] can be
    imported, and the outcome of the calls into the operating system to
    come ([Some e] makes the next one raise [e]). *)
Record Host := mk_host {
  files : gmap string string;
  aiofiles_installed : bool;
  os_errors : list (option string)
}.

Definition os_call : M Host unit :=
  fun h =>
    match os_errors h with
    | [] => (Ok tt, h)
    | None :: es =>
        (Ok tt, {| files := files h; aiofiles_installed := aiofiles_installed h;
                   os_errors := es |})
    | Some e :: es =>
        (Raise e, {| files := files h; aiofiles_installed := aiofiles_installed h;
                     os_errors := es |})
    end.

Definition set_file (filename content : string) (h : Host) : Host :=
  {| files := <[filename := content]> (files h);
     aiofiles_installed := aiofiles_installed h;
     os_errors := os_errors h |}.

(** [with open(filename, 'w') as f: f.write(content)]: opening empties
    the file. *)
Definition _write_file_sync (filename content : string) : M Host unit :=
  os_call ;;
  modify (set_file filename "") ;;
  os_call ;;
  modify (set_file filename content).

(** [async with aiofiles.open(filename, 'w') as f: await f.write(content)]. *)
Definition aiofiles_write (filename content : string) : M Host unit :=
  os_call ;;
  modify (set_file filename "") ;;
  os_call ;;
  modify (set_file filename content).

Definition DATA_DIR : string := "data".

Definition newline : string := String "010"%char "".

(** The text written: the maintained title and body, the generated labels. *)
Definition output_content (result : WorkflowResult) : string :=
  newline +:+ qm_title (quality_maintenance result) +:+ newline
  +:+ newline +:+ qm_content (quality_maintenance result) +:+ newline
  +:+ TaskScheduler.join " " (gc_label (generated_content result)) +:+ newline
  +:+ "    ".

(** [asave_result_to_file(result)]; [now] is its read of the clock. Without
    [aiofiles] the import raises [ImportError] and the thread pool runs
    [_write_file_sync]. *)
Definition asave_result_to_file (result : WorkflowResult)
    (now : Datetime.datetime) : M Host string :=
  os_call ;;                                  (* os.makedirs(DATA_DIR, exist_ok=True) *)
  let timestamp := Datetime.strftime_Ymd_HMS now in
  let filename := DATA_DIR +:+ "/result_" +:+ timestamp +:+ ".txt" in
  h <- get ;;
  (if aiofiles_installed h
   then aiofiles_write filename (output_content result)
   else _write_file_sync filename (output_content result)) ;;
  ret filename.

Definition save_result_to_file (result : WorkflowResult)
    (now : Datetime.datetime) : M Host string :=
  asave_result_to_file result now.

End Utils.

Import DatabaseManager TaskScheduler.

(* ===================================================================== *)
(** * The specification's notions *)
(* ===================================================================== *)

Module Spec.

Inductive TaskKind := Normal | Immediate.

(** The kind tag an id carries. *)
Definition kind_of_id (task_id : string) : TaskKind :=
  if String.prefix "test_" task_id then Immediate else Normal.

(** "immediate/test: createdAt + 1 minute; normal: createdAt +
    autoExecuteDelayHours". *)
Definition due_time_spec (cfg : SchedulerConfig) (task : ScheduledTask)
    : Res Datetime.datetime :=
  res_bind (Datetime.fromisoformat (created_at task)) (fun created =>
  match kind_of_id (id task) with
  | Immediate => res_bind (Datetime.timedelta 0 0 1) (Datetime.add created)
  | Normal =>
      res_bind (Datetime.timedelta 0 (auto_execute_delay_hours cfg) 0)
               (Datetime.add created)
  end).

(** The same delay, in microseconds. *)
Definition offset_us (cfg : SchedulerConfig) (task : ScheduledTask) : Z :=
  match kind_of_id (id task) with
  | Immediate => 60 * Datetime.US_PER_SECOND
  | Normal => auto_execute_delay_hours cfg * 3600 * Datetime.US_PER_SECOND
  end.

(** "Select the first task (in load order) whose due time <= now." *)
Fixpoint first_due (cfg : SchedulerConfig) (now : Datetime.datetime)
    (tasks : list ScheduledTask) : Res (option ScheduledTask) :=
  match tasks with
  | [] => Ok None
  | task :: rest =>
      match due_time_spec cfg task with
      | Raise e => Raise e
      | Ok due => if Datetime.ge now due then Ok (Some task)
                  else first_due cfg now rest
      end
  end.

(** "Completed, Failed, Cancelled are terminal." *)
Definition terminal (st : TaskStatus) : bool :=
  match st with
  | COMPLETED | FAILED | CANCELLED => true
  | PENDING | RUNNING => false
  end.

(** The time a task's retention is counted from: "completedAt, or
    createdAt if never completed". *)
Definition retention_stamp (r : Row) : string :=
  match col_completed_at r with
  | Some c => c
  | None => col_created_at r
  end.

(** A task [deleteOlderThan] is to remove: terminal, and older than the
    cutoff. *)
Definition expired (cutoff_str : string) (r : Row) : bool :=
  terminal (col_status r) && text_lt (retention_stamp r) cutoff_str.

(** The target execution time of a new task: the clock plus the delay. *)
Definition daily_target (cfg : SchedulerConfig) (now : Datetime.datetime)
    : Res Datetime.datetime :=
  res_bind (Datetime.timedelta 0 (auto_execute_delay_hours cfg) 0)
           (Datetime.add now).

Definition immediate_target (now : Datetime.datetime) : Res Datetime.datetime :=
  res_bind (Datetime.timedelta 0 0 1) (Datetime.add now).

End Spec.

Import Spec.

(* ===================================================================== *)
(** * Notions of the proofs *)
(* ===================================================================== *)

(** The first failure among the next [n] sqlite3 calls, if there is one. *)
Fixpoint first_fault (n : nat) (fs : list (option string)) : option string :=
  match n, fs with
  | O, _ => None
  | S _, [] => None
  | S _, Some e :: _ => Some e
  | S n', None :: fs' => first_fault n' fs'
  end.

(** What [load_tasks] returns when sqlite3 answers. *)
Definition loaded (d : Tables) : list ScheduledTask :=
  map (fun kr : string * Row => task_of (fst kr) (snd kr)) (sql_select_all d).

(** The Pending tasks of the store, in load order. *)
Definition pending_in_store (d : Tables) : list ScheduledTask :=
  filter (fun t => status t = PENDING) (loaded d).

(** The row [update_task_status] writes back. *)
Definition updated_row (task_id : string) (r : Row) (st : TaskStatus)
    (kw : StatusKwargs) (now : Datetime.datetime) : Row :=
  row_of (with_status (task_of task_id r) st kw now).

Definition set_col_status (st : TaskStatus) (r : Row) : Row :=
  {| col_name := col_name r; col_scheduled_time := col_scheduled_time r;
     col_workflow_count := col_workflow_count r; col_status := st;
     col_created_at := col_created_at r; col_started_at := col_started_at r;
     col_completed_at := col_completed_at r;
     col_success_count := col_success_count r;
     col_error_count := col_error_count r;
     col_error_message := col_error_message r |}.

(** The status a run of the worker ends with when its writes reach the
    store: Completed when every iteration succeeded, Failed when one failed
    or let an exception out. *)
Definition status_of_run (w : Worker) (workflow_count : Z) : TaskStatus :=
  match run_iterations (outcome w) (seq 0 (Z.to_nat workflow_count))
          {| n_success := 0; n_error := 0; error_messages := [] |} with
  | Ok c => if n_error c =? 0 then COMPLETED else FAILED
  | Raise _ => FAILED
  end.

Definition tables_of (s : Scheduler) : Tables := disk (db s).

(** The scheduler once a thread for [task_id] has been started. *)
Definition with_thread (task_id : string) (w : Worker) (s : Scheduler) : Scheduler :=
  set_threads (threads s ++ [mk_thread task_id w]) s.

(** A computation that leaves a property of the tables as it found it. *)
Definition keeps {A} (P : Tables -> Prop) (m : M Scheduler A) : Prop :=
  forall s, P (tables_of s) -> P (tables_of (snd (m s))).

(** The value of [scheduled_tasks] at the key [k]. *)
Definition row_is (k : string) (v : option Row) (d : Tables) : Prop :=
  scheduled_tasks d !! k = v.

(* ===================================================================== *)
(** * Sample stores, clocks and workers *)
(* ===================================================================== *)

Module Sample.

Definition at_18_00_10 := Datetime.mk_datetime 2024 5 1 18 0 10 250.
Definition at_18_00_50 := Datetime.mk_datetime 2024 5 1 18 0 50 0.
Definition at_21_00_00 := Datetime.mk_datetime 2024 5 1 21 0 0 0.
Definition at_21_05_00 := Datetime.mk_datetime 2024 5 1 21 5 0 0.
Definition a_month_later := Datetime.mk_datetime 2024 6 15 9 0 0 0.

(** A row created at 18:00:10, with the given status and batch size. *)
Definition a_row (st : TaskStatus) (n : Z) : Row :=
  {| col_name := "定时任务 - 05月02日 02:00";
     col_scheduled_time := "02:00";
     col_workflow_count := n;
     col_status := st;
     col_created_at := "2024-05-01T18:00:10.000250";
     col_started_at := None;
     col_completed_at := None;
     col_success_count := 0;
     col_error_count := 0;
     col_error_message := None |}.

Definition no_tables : Tables :=
  {| scheduled_tasks := ∅; scheduler_config := None |}.

(** A store holding the one task [task_20240502_0200]. *)
Definition one_task (st : TaskStatus) (n : Z) : Tables :=
  {| scheduled_tasks := {[ "task_20240502_0200" := a_row st n ]};
     scheduler_config :=
       Some {| col_config := default_config;
               col_updated_at := "2024-05-01T09:00:00" |} |}.

(** A database file whose sqlite3 calls all succeed. *)
Definition healthy (d : Tables) : Database := {| disk := d; faults := [] |}.

(** A database file whose second sqlite3 call fails. *)
Definition locked (d : Tables) : Database :=
  {| disk := d; faults := [None; Some "database is locked"] |}.

(** A scheduler at rest, with the default configuration. *)
Definition idle (d : Database) : Scheduler :=
  {| is_running := false; current_task_id := None; config := default_config;
     jobs := []; db := d; threads := [] |}.

(** A worker whose second iteration fails. *)
Definition second_fails : Worker :=
  {| outcome := fun i => if Nat.eqb i 1 then Fails "timeout" else Succeeds;
     started := at_21_00_00; finished := at_21_05_00 |}.

(** A worker whose first iteration lets an exception out of the loop. *)
Definition first_escapes : Worker :=
  {| outcome := fun i => if Nat.eqb i 0 then Escapes "event loop is closed"
                         else Succeeds;
     started := at_21_00_00; finished := at_21_05_00 |}.

(** The two tasks [create_daily_task] makes at 18:00:10 and at 18:00:50. *)
Definition first_daily : ScheduledTask :=
  {| id := "task_20240502_0200";
     name := "定时任务 - 05月02日 02:00";
     scheduled_time := "02:00";
     workflow_count := 70;
     status := PENDING;
     created_at := "2024-05-01T18:00:10.000250";
     started_at := None; completed_at := None;
     success_count := 0; error_count := 0; error_message := None |}.

Definition second_daily : ScheduledTask :=
  {| id := "task_20240502_0200";
     name := "定时任务 - 05月02日 02:00";
     scheduled_time := "02:00";
     workflow_count := 3;
     status := PENDING;
     created_at := "2024-05-01T18:00:50";
     started_at := None; completed_at := None;
     success_count := 0; error_count := 0; error_message := None |}.

(** The task [create_daily_task] makes at 21:00:00. *)
Definition later_daily : ScheduledTask :=
  {| id := "task_20240502_0500";
     name := "定时任务 - 05月02日 05:00";
     scheduled_time := "05:00";
     workflow_count := 70;
     status := PENDING;
     created_at := "2024-05-01T21:00:00";
     started_at := None; completed_at := None;
     success_count := 0; error_count := 0; error_message := None |}.

(** The task [create_immediate_task] makes at 18:00:10. *)
Definition an_immediate : ScheduledTask :=
  {| id := "test_20240501_180110";
     name := "测试任务 - 18:01:10";
     scheduled_time := "18:01";
     workflow_count := 5;
     status := PENDING;
     created_at := "2024-05-01T18:00:10.000250";
     started_at := None; completed_at := None;
     success_count := 0; error_count := 0; error_message := None |}.

(** A store holding a Cancelled task and, created at 18:00:10, a Pending
    test task. *)
Definition two_tasks : Tables :=
  {| scheduled_tasks :=
       {[ "task_20240502_0200" := a_row CANCELLED 3;
          "test_20240501_180110" := row_of an_immediate ]};
     scheduler_config := None |}.

End Sample.

(* ===================================================================== *)
(** * Notions of the further properties *)
(* ===================================================================== *)





(** A computation that leaves a reading [f] of the scheduler as it found
    it. *)
Definition frames {A B} (f : Scheduler -> B) (m : M Scheduler A) : Prop :=
  forall s, f (snd (m s)) = f s.


#[export] Instance Outcome_eq_dec : EqDecision Outcome.
Proof. solve_decision. Defined.

(** The counters before the first iteration. *)
Definition no_counts : Counters :=
  {| n_success := 0; n_error := 0; error_messages := [] |}.



(** The iterations of a task of [n] iterations: [range(n)]. *)
Definition iterations (n : Z) : list nat := seq 0 (Z.to_nat n).

(** The row a run leaves, from what its loop gave. *)
Definition final_row (task_id : string) (r : Row) (w : Worker) : Row :=
  let r1 := updated_row task_id r RUNNING no_kwargs (started w) in
  match run_iterations (outcome w) (iterations (col_workflow_count r)) no_counts with
  | Ok c =>
      updated_row task_id r1 (if n_error c =? 0 then COMPLETED else FAILED)
        {| kw_success_count := Some (n_success c);
           kw_error_count := Some (n_error c);
           kw_error_message :=
             match error_messages c with
             | [] => None
             | _ :: _ => Some (join "; " (take 3 (error_messages c)))
             end |}
        (finished w)
  | Raise e =>
      updated_row task_id r1 FAILED
        {| kw_success_count := None; kw_error_count := None;
           kw_error_message := Some e |}
        (finished w)
  end.














(* ===================================================================== *)
(** * The embedding at work *)
(* ===================================================================== *)

Example isoformat_with_fraction :
  Datetime.isoformat Sample.at_18_00_10 = "2024-05-01T18:00:10.000250".
Proof. reflexivity. Qed.

Example isoformat_whole_second :
  Datetime.isoformat Sample.at_18_00_50 = "2024-05-01T18:00:50".
Proof. reflexivity. Qed.

Example fromisoformat_reads_back :
  Datetime.fromisoformat "2024-05-01T18:00:10.000250" = Ok Sample.at_18_00_10.
Proof. reflexivity. Qed.

Example fromisoformat_refuses_30_february :
  Datetime.fromisoformat "2023-02-30T10:00:00"
  = Raise "ValueError: Invalid isoformat string: 2023-02-30T10:00:00".
Proof. reflexivity. Qed.

Example add_over_a_leap_day :
  Datetime.add (Datetime.mk_datetime 2024 2 28 23 59 30 0)
    (60 * Datetime.US_PER_SECOND)
  = Ok (Datetime.mk_datetime 2024 2 29 0 0 30 0).
Proof. reflexivity. Qed.

Example add_past_the_last_year :
  Datetime.add (Datetime.mk_datetime 9999 12 31 23 59 59 0) Datetime.US_PER_SECOND
  = Raise "OverflowError: date value out of range".
Proof. reflexivity. Qed.

Example create_daily_task_at_18_00_10 :
  fst (create_daily_task None Sample.at_18_00_10 Sample.at_18_00_10
         (Sample.idle (Sample.healthy Sample.no_tables)))
  = Ok Sample.first_daily.
Proof. vm_compute. reflexivity. Qed.

Example create_immediate_task_at_18_00_10 :
  fst (create_immediate_task None Sample.at_18_00_10 Sample.at_18_00_10
         (Sample.idle (Sample.healthy Sample.no_tables)))
  = Ok Sample.an_immediate.
Proof. vm_compute. reflexivity. Qed.

Example create_daily_task_on_a_locked_database :
  fst (create_daily_task None Sample.at_18_00_10 Sample.at_18_00_10
         (Sample.idle (Sample.locked Sample.no_tables)))
  = Raise "保存任务到数据库失败".
Proof. vm_compute. reflexivity. Qed.

(** Three iterations, the second of which fails. *)
Example execute_task_with_one_failure :
  scheduled_tasks
    (disk (db (snd (execute_task "task_20240502_0200" Sample.second_fails
                      (Sample.idle (Sample.healthy (Sample.one_task PENDING 3)))))))
    !! "task_20240502_0200"
  = Some {| col_name := "定时任务 - 05月02日 02:00";
            col_scheduled_time := "02:00";
            col_workflow_count := 3;
            col_status := FAILED;
            col_created_at := "2024-05-01T18:00:10.000250";
            col_started_at := Some "2024-05-01T21:00:00";
            col_completed_at := Some "2024-05-01T21:05:00";
            col_success_count := 2;
            col_error_count := 1;
            col_error_message := Some "第2次: timeout" |}.
Proof. vm_compute. reflexivity. Qed.

(** The same run when its first call to the store fails: the update to
    Running finds no task and writes nothing, the loop runs all the same,
    and the last update stores the counts; [started_at] stays NULL. *)
Example execute_task_after_a_lost_update :
  scheduled_tasks
    (disk (db (snd (execute_task "task_20240502_0200" Sample.second_fails
                      (Sample.idle
                         {| disk := Sample.one_task PENDING 3;
                            faults := [Some "database is locked"] |})))))
    !! "task_20240502_0200"
  = Some {| col_name := "定时任务 - 05月02日 02:00";
            col_scheduled_time := "02:00";
            col_workflow_count := 3;
            col_status := FAILED;
            col_created_at := "2024-05-01T18:00:10.000250";
            col_started_at := None;
            col_completed_at := Some "2024-05-01T21:05:00";
            col_success_count := 2;
            col_error_count := 1;
            col_error_message := Some "第2次: timeout" |}.
Proof. vm_compute. reflexivity. Qed.

(** A check at 21:00 finds the test task of 18:00:10 due: it starts a
    thread for it and returns, the store as it was. The task is run when
    the thread is. *)
Example check_starts_a_thread :
  _check_and_execute_tasks Sample.at_21_00_00 Sample.second_fails
    (Sample.idle (Sample.healthy Sample.two_tasks))
  = (Ok tt,
     {| is_running := false; current_task_id := None; config := default_config;
        jobs := []; db := Sample.healthy Sample.two_tasks;
        threads := [mk_thread "test_20240501_180110" Sample.second_fails] |}).
Proof. vm_compute. reflexivity. Qed.

Example thread_runs_the_task :
  (fun s => (threads s,
             col_status <$> scheduled_tasks (disk (db s)) !! "test_20240501_180110"))
    (snd ((_check_and_execute_tasks Sample.at_21_00_00 Sample.second_fails ;;
           run_thread 0)
            (Sample.idle (Sample.healthy Sample.two_tasks))))
  = ([], Some FAILED).
Proof. vm_compute. reflexivity. Qed.

(** [load_tasks] returns the newest task first. *)
Example load_tasks_newest_first :
  map id
    (loaded (disk (snd (save_task Sample.later_daily
                          (snd (save_task Sample.an_immediate
                                  (snd (save_task Sample.second_daily
                                          (Sample.healthy Sample.no_tables)))))))))
  = ["task_20240502_0500"; "task_20240502_0200"; "test_20240501_180110"].
Proof. vm_compute. reflexivity. Qed.

(* ===================================================================== *)
(** * Facts about formatting and the calendar *)
(* ===================================================================== *)

Section DatetimeFacts.

Import Datetime.

Lemma compare_str a b : String.compare (str a) (str b) = cmp_chars a b.
Proof.
  revert b. induction a as [|x a IH]; intros [|y b]; simpl; try reflexivity.
  rewrite IH. reflexivity.
Qed.

Lemma cmp_chars_refl a : cmp_chars a a = Eq.
Proof.
  induction a as [|x a IH]; simpl; [reflexivity|].
  unfold Ascii.compare. rewrite N.compare_refl. exact IH.
Qed.

Lemma string_compare_refl s : String.compare s s = Eq.
Proof.
  induction s as [|c s IH]; simpl; [reflexivity|].
  unfold Ascii.compare. rewrite N.compare_refl. exact IH.
Qed.

Lemma cmp_chars_app p1 p2 s1 s2 :
  length p1 = length p2 ->
  cmp_chars (p1 ++ s1) (p2 ++ s2)
  = match cmp_chars p1 p2 with
    | Eq => cmp_chars s1 s2
    | c => c
    end.
Proof.
  revert p2. induction p1 as [|x p1 IH]; intros [|y p2] Hlen; simpl in *;
    try discriminate; try reflexivity.
  destruct (Ascii.compare x y); try reflexivity.
  apply IH. congruence.
Qed.

Lemma cmp_fields_eq a b : cmp_fields a b = Eq -> a = b.
Proof.
  revert b. induction a as [|x a IH]; intros [|y b]; simpl; try discriminate;
    [reflexivity|].
  destruct (Z.compare_spec x y) as [Hxy| |]; try discriminate.
  intros H. f_equal; [exact Hxy | apply IH, H].
Qed.

Lemma string_app_inv_head p x y : p +:+ x = p +:+ y -> x = y.
Proof.
  induction p as [|c p IH]; simpl; [trivial|].
  intros H. injection H as H. apply IH, H.
Qed.

Lemma zfill_length w n : length (zfill w n) = w.
Proof.
  revert n. induction w as [|w IH]; intros n; simpl; [reflexivity|].
  rewrite length_app, IH. simpl. lia.
Qed.

Lemma compare_digit a b :
  0 <= a < 10 -> 0 <= b < 10 -> Ascii.compare (digit a) (digit b) = (a ?= b).
Proof.
  intros Ha Hb. unfold Ascii.compare, digit.
  rewrite !N_ascii_embedding by lia.
  rewrite Z2N.inj_compare by lia.
  apply Z.add_compare_mono_l.
Qed.

(** Comparing two numbers: by their tens, then by their units. *)
Lemma compare_div_mod a b :
  match a / 10 ?= b / 10 with
  | Eq => a mod 10 ?= b mod 10
  | c => c
  end = (a ?= b).
Proof.
  destruct (Z.compare_spec (a / 10) (b / 10)) as [H|H|H];
    destruct (Z.compare_spec a b) as [H'|H'|H']; try reflexivity;
    try (exfalso; Z.div_mod_to_equations; lia).
  all: destruct (Z.compare_spec (a mod 10) (b mod 10)); try reflexivity;
    exfalso; Z.div_mod_to_equations; lia.
Qed.

(** Zero-padded numbers of one width compare as the numbers do. *)
Lemma cmp_zfill w a b :
  0 <= a < 10 ^ Z.of_nat w -> 0 <= b < 10 ^ Z.of_nat w ->
  cmp_chars (zfill w a) (zfill w b) = (a ?= b).
Proof.
  revert a b. induction w as [|w IH]; intros a b Ha Hb.
  - simpl in *. assert (a = 0) by lia. assert (b = 0) by lia. subst. reflexivity.
  - rewrite Nat2Z.inj_succ, Z.pow_succ_r in Ha, Hb by lia.
    simpl. rewrite cmp_chars_app by (rewrite !zfill_length; reflexivity).
    rewrite IH by (Z.div_mod_to_equations; lia). simpl.
    rewrite compare_digit by (apply Z.mod_pos_bound; lia).
    replace (match a mod 10 ?= b mod 10 with Eq => Eq | Lt => Lt | Gt => Gt end)
      with (a mod 10 ?= b mod 10) by (destruct (a mod 10 ?= b mod 10); reflexivity).
    apply compare_div_mod.
Qed.

Lemma cmp_fraction a b :
  0 <= a < 1000000 -> 0 <= b < 1000000 ->
  cmp_chars (fraction a) (fraction b) = (a ?= b).
Proof.
  intros Ha Hb. unfold fraction.
  destruct (Z.eqb_spec a 0) as [->|Ha0], (Z.eqb_spec b 0) as [->|Hb0].
  - reflexivity.
  - cbn [cmp_chars chars String.list_ascii_of_string app].
    symmetry. apply (proj2 (Z.compare_lt_iff 0 b)). lia.
  - cbn [cmp_chars chars String.list_ascii_of_string app].
    symmetry. apply (proj2 (Z.compare_gt_iff a 0)). lia.
  - rewrite cmp_chars_app by reflexivity.
    change (cmp_chars (chars ".") (chars ".")) with Eq. cbv iota.
    apply (cmp_zfill 6); lia.
Qed.

Lemma printable_bounds d :
  printable d = true ->
  0 <= year d < 10000 /\ 0 <= month d < 100 /\ 0 <= day d < 100
  /\ 0 <= hour d < 100 /\ 0 <= minute d < 100 /\ 0 <= second d < 100
  /\ 0 <= microsecond d < 1000000.
Proof. unfold printable. lia. Qed.

(** Compare a text made of padded numbers and separators, piece by piece. *)
Ltac cmp_pieces :=
  repeat (rewrite cmp_chars_app by (rewrite ?zfill_length; reflexivity);
          first [ rewrite (cmp_zfill 4) by lia
                | rewrite (cmp_zfill 2) by lia
                | match goal with
                  | |- context [cmp_chars (chars ?s) (chars ?s)] =>
                      change (cmp_chars (chars s) (chars s)) with Eq; cbv iota
                  end ]).

Ltac cmp_cases :=
  repeat match goal with
         | |- context [?x ?= ?y] => destruct (x ?= y); try reflexivity
         end.

(** The order of two ISO texts is the order of the datetimes they print. *)
Lemma isoformat_compare a b :
  printable a = true -> printable b = true ->
  String.compare (isoformat a) (isoformat b) = _cmp a b.
Proof.
  intros Ha Hb.
  apply printable_bounds in Ha as (Hy & Hm & Hd & Hh & Hn & Hs & Hu).
  apply printable_bounds in Hb as (Hy' & Hm' & Hd' & Hh' & Hn' & Hs' & Hu').
  unfold isoformat. rewrite compare_str. cmp_pieces.
  rewrite cmp_fraction by lia.
  unfold _cmp, fields. simpl. cmp_cases.
Qed.

Lemma strftime_Ymd_HM_compare a b :
  printable a = true -> printable b = true ->
  String.compare (strftime_Ymd_HM a) (strftime_Ymd_HM b)
  = cmp_fields (minute_slot a) (minute_slot b).
Proof.
  intros Ha Hb.
  apply printable_bounds in Ha as (Hy & Hm & Hd & Hh & Hn & Hs & Hu).
  apply printable_bounds in Hb as (Hy' & Hm' & Hd' & Hh' & Hn' & Hs' & Hu').
  unfold strftime_Ymd_HM. rewrite compare_str. cmp_pieces.
  rewrite (cmp_zfill 2) by lia.
  unfold minute_slot. simpl. cmp_cases.
Qed.

Lemma strftime_Ymd_HMS_compare a b :
  printable a = true -> printable b = true ->
  String.compare (strftime_Ymd_HMS a) (strftime_Ymd_HMS b)
  = cmp_fields (second_slot a) (second_slot b).
Proof.
  intros Ha Hb.
  apply printable_bounds in Ha as (Hy & Hm & Hd & Hh & Hn & Hs & Hu).
  apply printable_bounds in Hb as (Hy' & Hm' & Hd' & Hh' & Hn' & Hs' & Hu').
  unfold strftime_Ymd_HMS. rewrite compare_str. cmp_pieces.
  rewrite (cmp_zfill 2) by lia.
  unfold second_slot. simpl. cmp_cases.
Qed.

(** Two [task_...] ids are one id exactly for one calendar minute. *)
Lemma daily_id_slot a b :
  printable a = true -> printable b = true ->
  ("task_" +:+ strftime_Ymd_HM a = "task_" +:+ strftime_Ymd_HM b
   <-> minute_slot a = minute_slot b).
Proof.
  intros Ha Hb. split.
  - intros H. apply string_app_inv_head in H. apply cmp_fields_eq.
    rewrite <- strftime_Ymd_HM_compare, H by assumption.
    apply string_compare_refl.
  - unfold minute_slot, strftime_Ymd_HM. intros [= -> -> -> -> ->]. reflexivity.
Qed.

(** Two [test_...] ids are one id exactly for one calendar second. *)
Lemma immediate_id_slot a b :
  printable a = true -> printable b = true ->
  ("test_" +:+ strftime_Ymd_HMS a = "test_" +:+ strftime_Ymd_HMS b
   <-> second_slot a = second_slot b).
Proof.
  intros Ha Hb. split.
  - intros H. apply string_app_inv_head in H. apply cmp_fields_eq.
    rewrite <- strftime_Ymd_HMS_compare, H by assumption.
    apply string_compare_refl.
  - unfold second_slot, strftime_Ymd_HMS. intros [= -> -> -> -> -> ->]. reflexivity.
Qed.

(** Every day of a year falls in a month 1..12 on a day 1..31: checked on
    the 365 offsets, for a leap year and for a common year. *)
Lemma month_day_range n leapyear :
  0 <= n < 365 -> month_day_in_range n leapyear = true.
Proof.
  intros Hn.
  assert (H : forallb (fun i => month_day_in_range (Z.of_nat i) true
                                && month_day_in_range (Z.of_nat i) false)
                (seq 0 365) = true) by (vm_compute; reflexivity).
  rewrite forallb_forall in H. specialize (H (Z.to_nat n)).
  rewrite Z2Nat.id in H by lia.
  assert (Hin : In (Z.to_nat n) (seq 0 365)) by (apply in_seq; lia).
  apply H in Hin. apply andb_true_iff in Hin as [Ht Hf].
  destruct leapyear; assumption.
Qed.

Lemma _ord2ymd_range n :
  0 < n <= _MAXORDINAL ->
  let '(y, m, d) := _ord2ymd n in
  1 <= y <= 9999 /\ 1 <= m <= 12 /\ 1 <= d <= 31.
Proof.
  unfold _MAXORDINAL. intros Hn. unfold _ord2ymd, _DI400Y, _DI100Y, _DI4Y.
  set (n0 := n - 1).
  set (n400 := n0 / 146097). set (r400 := n0 mod 146097).
  set (n100 := r400 / 36524). set (r100 := r400 mod 36524).
  set (n4 := r100 / 1461). set (r4 := r100 mod 1461).
  set (n1 := r4 / 365). set (r := r4 mod 365).
  assert (Hr : 0 <= r < 365) by (apply Z.mod_pos_bound; lia).
  assert (Hyear : 1 <= n400 * 400 + 1 + n100 * 100 + n4 * 4 + n1 <= 10000
                  /\ ((n1 =? 4) || (n100 =? 4) = false ->
                      n400 * 400 + 1 + n100 * 100 + n4 * 4 + n1 <= 9999)
                  /\ ((n1 =? 4) || (n100 =? 4) = true ->
                      2 <= n400 * 400 + 1 + n100 * 100 + n4 * 4 + n1)).
  { subst n400 r400 n100 r100 n4 r4 n1 n0.
    destruct (Z.eqb_spec (((n - 1) mod 146097 mod 36524 mod 1461) / 365) 4);
      destruct (Z.eqb_spec ((n - 1) mod 146097 / 36524) 4); simpl;
      repeat split; intros; try discriminate; Z.div_mod_to_equations; lia. }
  destruct Hyear as (Hy & Hy1 & Hy2).
  destruct ((n1 =? 4) || (n100 =? 4)) eqn:Hsp.
  - specialize (Hy2 eq_refl). lia.
  - specialize (Hy1 eq_refl).
    pose proof (month_day_range r
                  ((n1 =? 3) && (negb (n4 =? 24) || (n100 =? 3))) Hr) as Hmd.
    unfold month_day_in_range, month_day in Hmd.
    match goal with |- context [if ?c then _ else _] => destruct c end; lia.
Qed.

Lemma of_us_printable t :
  0 < t / US_PER_DAY <= _MAXORDINAL -> printable (of_us t) = true.
Proof.
  intros Hd. unfold of_us.
  pose proof (_ord2ymd_range _ Hd) as Hymd.
  destruct (_ord2ymd (t / US_PER_DAY)) as [[y m] d].
  unfold printable, US_PER_DAY, US_PER_SECOND in *. simpl.
  Z.div_mod_to_equations. lia.
Qed.

(** What [datetime + timedelta] returns can be printed. *)
Lemma add_printable d delta r : add d delta = Ok r -> printable r = true.
Proof.
  unfold add. destruct (_ && _) eqn:E; [|discriminate].
  intros [= <-]. apply of_us_printable. lia.
Qed.

Lemma digit_val_digit n : 0 <= n < 10 -> digit_val (digit n) = Some n.
Proof.
  intros Hn. unfold digit_val, digit.
  rewrite N_ascii_embedding by lia. rewrite Z2N.id by lia.
  destruct (Z.leb_spec 48 (48 + n)); [|lia].
  destruct (Z.leb_spec (48 + n) 57); [|lia].
  simpl. f_equal. lia.
Qed.

Lemma number_app acc l1 l2 :
  number acc (l1 ++ l2)
  = match number acc l1 with
    | Some v => number v l2
    | None => None
    end.
Proof.
  revert acc. induction l1 as [|c l1 IH]; intros acc; simpl; [reflexivity|].
  destruct (digit_val c); [apply IH | reflexivity].
Qed.

Lemma number_zfill w n :
  0 <= n < 10 ^ Z.of_nat w -> number 0 (zfill w n) = Some n.
Proof.
  revert n. induction w as [|w IH]; intros n Hn.
  - simpl in *. f_equal. lia.
  - rewrite Nat2Z.inj_succ, Z.pow_succ_r in Hn by lia.
    simpl. rewrite number_app, IH by (Z.div_mod_to_equations; lia).
    simpl. rewrite digit_val_digit by (apply Z.mod_pos_bound; lia).
    f_equal. Z.div_mod_to_equations. lia.
Qed.

Lemma valid_bounds d :
  valid d = true ->
  1 <= year d <= 9999 /\ 1 <= month d <= 12
  /\ 1 <= day d <= _days_in_month (year d) (month d)
  /\ 0 <= hour d <= 23 /\ 0 <= minute d <= 59 /\ 0 <= second d <= 59
  /\ 0 <= microsecond d <= 999999.
Proof.
  unfold valid, MINYEAR, MAXYEAR. intros H.
  repeat (apply andb_true_iff in H as [H ?]).
  repeat match goal with
         | H : (_ <=? _) = true |- _ => apply Z.leb_le in H
         end.
  lia.
Qed.

Lemma _days_in_month_le y m : 1 <= m <= 12 -> _days_in_month y m <= 31.
Proof.
  intros Hm. unfold _days_in_month. destruct (_ && _); [lia|].
  assert (Hc : m = 1 \/ m = 2 \/ m = 3 \/ m = 4 \/ m = 5 \/ m = 6 \/ m = 7
               \/ m = 8 \/ m = 9 \/ m = 10 \/ m = 11 \/ m = 12) by lia.
  repeat (destruct Hc as [-> | Hc]; [simpl; lia|]). rewrite Hc. simpl. lia.
Qed.

Lemma valid_printable d : valid d = true -> printable d = true.
Proof.
  intros H. apply valid_bounds in H as (Hy & Hm & Hd & Hh & Hn & Hs & Hu).
  pose proof (_days_in_month_le (year d) (month d) Hm).
  unfold printable. lia.
Qed.

(** Parsing the ISO text of a valid datetime gives the datetime back. *)
Lemma fromisoformat_isoformat d : valid d = true -> fromisoformat (isoformat d) = Ok d.
Proof.
  intros Hv. pose proof (valid_printable d Hv) as Hp.
  apply printable_bounds in Hp as (Hy & Hm & Hd & Hh & Hn & Hs & Hu).
  unfold fromisoformat, isoformat.
  unfold chars at 1, str. rewrite String.list_ascii_of_string_of_list_ascii.
  cbn [zfill app chars String.list_ascii_of_string].
  change (is_char "-" "-") with true. change (is_char "T" "T") with true.
  change (is_char ":" ":") with true. cbn [andb].
  change [digit (year d / 10 / 10 / 10 mod 10); digit (year d / 10 / 10 mod 10);
          digit (year d / 10 mod 10); digit (year d mod 10)]
    with (zfill 4 (year d)).
  change [digit (month d / 10 mod 10); digit (month d mod 10)] with (zfill 2 (month d)).
  change [digit (day d / 10 mod 10); digit (day d mod 10)] with (zfill 2 (day d)).
  change [digit (hour d / 10 mod 10); digit (hour d mod 10)] with (zfill 2 (hour d)).
  change [digit (minute d / 10 mod 10); digit (minute d mod 10)] with (zfill 2 (minute d)).
  change [digit (second d / 10 mod 10); digit (second d mod 10)] with (zfill 2 (second d)).
  rewrite (number_zfill 4), !(number_zfill 2) by lia.
  assert (Hus : match fraction (microsecond d) with
                | [] => Some 0
                | p :: ([_; _; _; _; _; _] as f) =>
                    if is_char p "." then number 0 f else None
                | _ => None
                end = Some (microsecond d)).
  { unfold fraction. destruct (Z.eqb_spec (microsecond d) 0) as [E|E].
    - rewrite E. reflexivity.
    - cbn [zfill app chars String.list_ascii_of_string].
      change (is_char "." ".") with true. cbv iota.
      change [digit (microsecond d / 10 / 10 / 10 / 10 / 10 mod 10);
              digit (microsecond d / 10 / 10 / 10 / 10 mod 10);
              digit (microsecond d / 10 / 10 / 10 mod 10);
              digit (microsecond d / 10 / 10 mod 10);
              digit (microsecond d / 10 mod 10); digit (microsecond d mod 10)]
        with (zfill 6 (microsecond d)).
      apply (number_zfill 6). lia. }
  rewrite Hus.
  destruct d as [y m dd h n sc us]. cbn [year month day hour minute second microsecond] in *.
  rewrite Hv. reflexivity.
Qed.

(** The ordinal of the date [_ord2ymd] returns is the ordinal it was given:
    checked on the 365 offsets for the month and day, by arithmetic for
    the year. *)
Lemma month_day_ordinal n leapyear :
  0 <= n < 365 -> month_day_ordinal_ok n leapyear = true.
Proof.
  intros Hn.
  assert (H : forallb (fun i => month_day_ordinal_ok (Z.of_nat i) true
                                && month_day_ordinal_ok (Z.of_nat i) false)
                (seq 0 365) = true) by (vm_compute; reflexivity).
  rewrite forallb_forall in H. specialize (H (Z.to_nat n)).
  rewrite Z2Nat.id in H by lia.
  assert (Hin : In (Z.to_nat n) (seq 0 365)) by (apply in_seq; lia).
  apply H in Hin. apply andb_true_iff in Hin as [Ht Hf].
  destruct leapyear; assumption.
Qed.

Lemma _days_before_year_split a b c d :
  0 <= b <= 3 -> 0 <= c <= 24 -> 0 <= d <= 3 ->
  _days_before_year (a * 400 + 1 + b * 100 + c * 4 + d)
  = 146097 * a + 36524 * b + 1461 * c + 365 * d.
Proof.
  intros Hb Hc Hd. unfold _days_before_year.
  Z.div_mod_to_equations. lia.
Qed.

Lemma _is_leap_split a b c d :
  0 <= b <= 3 -> 0 <= c <= 24 -> 0 <= d <= 3 ->
  _is_leap (a * 400 + 1 + b * 100 + c * 4 + d)
  = (d =? 3) && (negb (c =? 24) || (b =? 3)).
Proof.
  intros Hb Hc Hd. unfold _is_leap.
  destruct (Z.eqb_spec d 3), (Z.eqb_spec c 24), (Z.eqb_spec b 3); simpl;
    repeat match goal with
           | |- context [?x =? 0] => destruct (Z.eqb_spec x 0)
           end; simpl; try reflexivity; exfalso; Z.div_mod_to_equations; lia.
Qed.

Lemma _ymd2ord_ord2ymd n :
  0 < n -> let '(y, m, d) := _ord2ymd n in _ymd2ord y m d = n.
Proof.
  intros Hn. unfold _ord2ymd, _DI400Y, _DI100Y, _DI4Y.
  set (n0 := n - 1).
  set (a := n0 / 146097). set (r400 := n0 mod 146097).
  set (b := r400 / 36524). set (r100 := r400 mod 36524).
  set (c := r100 / 1461). set (r4 := r100 mod 1461).
  set (d := r4 / 365). set (r := r4 mod 365).
  assert (Hdec : n = 146097 * a + 36524 * b + 1461 * c + 365 * d + r + 1
                 /\ 0 <= b <= 4 /\ 0 <= c <= 24 /\ 0 <= d <= 4 /\ 0 <= r < 365
                 /\ (b = 4 -> c = 0 /\ d = 0 /\ r = 0)
                 /\ (d = 4 -> r = 0 /\ c <= 23)).
  { subst a r400 b r100 c r4 d r n0. Z.div_mod_to_equations. lia. }
  destruct Hdec as (Hdec & Hb & Hc & Hd & Hr & Hb4 & Hd4).
  clearbody a b c d r. clear n0 r400 r100 r4.
  destruct (Z.eqb_spec d 4) as [Ed|Ed]; [|destruct (Z.eqb_spec b 4) as [Eb|Eb]];
    cbn [orb].
  - destruct (Hd4 Ed) as [-> Hc23]. subst d.
    replace (a * 400 + 1 + b * 100 + c * 4 + 4 - 1)
      with (a * 400 + 1 + b * 100 + c * 4 + 3) by lia.
    assert (b <> 4) by (intros ->; destruct (Hb4 eq_refl) as (_ & ? & _); lia).
    unfold _ymd2ord, _days_before_month.
    rewrite _days_before_year_split, _is_leap_split by lia.
    replace (c =? 24) with false by (symmetry; apply Z.eqb_neq; lia).
    simpl. lia.
  - destruct (Hb4 Eb) as (-> & -> & ->). subst b.
    replace (a * 400 + 1 + 4 * 100 + 0 * 4 + 0 - 1)
      with (a * 400 + 1 + 3 * 100 + 24 * 4 + 3) by lia.
    unfold _ymd2ord, _days_before_month.
    rewrite _days_before_year_split, _is_leap_split by lia.
    simpl. lia.
  - pose proof (month_day_ordinal r
                  ((d =? 3) && (negb (c =? 24) || (b =? 3))) Hr) as Hmd.
    unfold month_day_ordinal_ok, month_day in Hmd.
    match goal with |- context [if ?c then _ else _] => destruct c end;
      apply Z.eqb_eq in Hmd;
      unfold _ymd2ord, _days_before_month;
      rewrite _days_before_year_split, _is_leap_split by lia; lia.
Qed.

Lemma to_us_of_us t : 0 < t / US_PER_DAY -> to_us (of_us t) = t.
Proof.
  intros Ht. unfold of_us, to_us.
  pose proof (_ymd2ord_ord2ymd _ Ht) as Hord.
  destruct (_ord2ymd (t / US_PER_DAY)) as [[y m] d].
  cbn [year month day hour minute second microsecond]. rewrite Hord.
  unfold US_PER_DAY, US_PER_SECOND in *. Z.div_mod_to_equations. lia.
Qed.

(** [d + delta] is [delta] microseconds after [d]. *)
Lemma add_to_us d delta r : add d delta = Ok r -> to_us r = to_us d + delta.
Proof.
  unfold add. destruct (_ && _) eqn:E; [|discriminate].
  intros [= <-]. apply to_us_of_us. lia.
Qed.

Lemma _days_before_year_succ y :
  _days_before_year (y + 1)
  = _days_before_year y + 365 + (if _is_leap y then 1 else 0).
Proof.
  unfold _days_before_year, _is_leap.
  repeat match goal with
         | |- context [?x =? 0] => destruct (Z.eqb_spec x 0)
         end; simpl; Z.div_mod_to_equations; lia.
Qed.

Lemma _days_before_year_mono y y' :
  y <= y' -> _days_before_year y <= _days_before_year y'.
Proof. unfold _days_before_year. intros H. Z.div_mod_to_equations. lia. Qed.

Lemma month_cases m :
  1 <= m <= 12 ->
  m = 1 \/ m = 2 \/ m = 3 \/ m = 4 \/ m = 5 \/ m = 6 \/ m = 7 \/ m = 8
  \/ m = 9 \/ m = 10 \/ m = 11 \/ m = 12.
Proof. lia. Qed.

Ltac each_month H :=
  repeat (destruct H as [-> | H]); [.. | rewrite H].

(** The days before a month and the days of it stay within the year. *)
Lemma _days_before_month_bounds y m :
  1 <= m <= 12 ->
  0 <= _days_before_month y m
  /\ 1 <= _days_in_month y m
  /\ _days_before_month y m + _days_in_month y m
     <= 365 + (if _is_leap y then 1 else 0).
Proof.
  intros Hm. apply month_cases in Hm.
  unfold _days_before_month, _days_in_month.
  destruct (_is_leap y); each_month Hm; simpl; lia.
Qed.

Lemma _days_before_month_next y m m' :
  1 <= m -> m < m' -> m' <= 12 ->
  _days_before_month y m + _days_in_month y m <= _days_before_month y m'.
Proof.
  intros H1 Hlt H12.
  assert (Hm : 1 <= m <= 12) by lia. assert (Hm' : 1 <= m' <= 12) by lia.
  apply month_cases in Hm. apply month_cases in Hm'.
  unfold _days_before_month, _days_in_month.
  destruct (_is_leap y); each_month Hm; each_month Hm'; simpl; lia.
Qed.

(** Earlier dates have smaller ordinals. *)
Lemma ordinal_lt a b :
  valid a = true -> valid b = true ->
  cmp_fields [year a; month a; day a] [year b; month b; day b] = Lt ->
  ordinal a < ordinal b.
Proof.
  intros Ha Hb.
  apply valid_bounds in Ha as (Hy & Hm & Hd & _).
  apply valid_bounds in Hb as (Hy' & Hm' & Hd' & _).
  unfold ordinal, _ymd2ord. cbn [cmp_fields].
  pose proof (_days_before_month_bounds (year a) (month a) Hm) as (B1 & B2 & B3).
  pose proof (_days_before_month_bounds (year b) (month b) Hm') as (B1' & B2' & B3').
  destruct (Z.compare_spec (year a) (year b)) as [Ey|Ey|Ey]; try discriminate.
  - destruct (Z.compare_spec (month a) (month b)) as [Em|Em|Em]; try discriminate.
    + destruct (Z.compare_spec (day a) (day b)) as [Ed|Ed|Ed]; try discriminate.
      intros _. rewrite Ey, Em. lia.
    + intros _. rewrite Ey in *.
      pose proof (_days_before_month_next (year b) (month a) (month b)). lia.
  - intros _.
    pose proof (_days_before_year_succ (year a)).
    pose proof (_days_before_year_mono (year a + 1) (year b)). lia.
Qed.

Lemma cmp_fields_antisym a b : cmp_fields b a = CompOpp (cmp_fields a b).
Proof.
  revert b. induction a as [|x a IH]; intros [|y b]; simpl; try reflexivity.
  rewrite (Z.compare_antisym x y).
  destruct (x ?= y); simpl; [apply IH | reflexivity | reflexivity].
Qed.

Lemma ordinal_compare a b :
  valid a = true -> valid b = true ->
  (ordinal a ?= ordinal b)
  = cmp_fields [year a; month a; day a] [year b; month b; day b].
Proof.
  intros Ha Hb.
  destruct (cmp_fields [year a; month a; day a] [year b; month b; day b]) eqn:E.
  - apply cmp_fields_eq in E. injection E as Ey Em Ed.
    unfold ordinal. rewrite Ey, Em, Ed. apply Z.compare_refl.
  - apply Z.compare_lt_iff. apply ordinal_lt; assumption.
  - apply Z.compare_gt_iff. apply ordinal_lt; try assumption.
    rewrite cmp_fields_antisym, E. reflexivity.
Qed.

(** Comparing two numbers in a mixed radix: by the high part, then by the
    low part. *)
Lemma compare_radix R hi lo hi' lo' :
  0 <= lo < R -> 0 <= lo' < R ->
  (hi * R + lo ?= hi' * R + lo')
  = match hi ?= hi' with
    | Eq => lo ?= lo'
    | c => c
    end.
Proof.
  intros Hlo Hlo'.
  destruct (Z.compare_spec hi hi') as [E|E|E].
  - subst hi'. apply Z.add_compare_mono_l.
  - apply Z.compare_lt_iff. nia.
  - apply Z.compare_gt_iff. nia.
Qed.

(** The order of two valid datetimes is the order of their instants. *)
Lemma _cmp_to_us a b :
  valid a = true -> valid b = true -> _cmp a b = (to_us a ?= to_us b).
Proof.
  intros Ha Hb.
  pose proof (ordinal_compare a b Ha Hb) as Hord.
  apply valid_bounds in Ha as (_ & _ & _ & Hh & Hm & Hs & Hu).
  apply valid_bounds in Hb as (_ & _ & _ & Hh' & Hm' & Hs' & Hu').
  unfold to_us, US_PER_SECOND. fold (ordinal a). fold (ordinal b).
  rewrite (compare_radix 1000000) by lia.
  rewrite (compare_radix 60) by lia.
  rewrite (compare_radix 60) by lia.
  rewrite (compare_radix 24) by lia.
  rewrite Hord. unfold _cmp, fields. cbn [cmp_fields].
  repeat match goal with
         | |- context [?x ?= ?y] => destruct (x ?= y); try reflexivity
         end.
Qed.

Lemma ge_to_us a b :
  valid a = true -> valid b = true -> ge a b = (to_us b <=? to_us a).
Proof.
  intros Ha Hb. unfold ge. rewrite (_cmp_to_us a b Ha Hb).
  rewrite Z.leb_antisym, Z.ltb_compare.
  destruct (to_us a ?= to_us b); reflexivity.
Qed.

Lemma lt_to_us a b :
  valid a = true -> valid b = true -> lt a b = (to_us a <? to_us b).
Proof.
  intros Ha Hb. unfold lt. rewrite (_cmp_to_us a b Ha Hb).
  rewrite Z.ltb_compare. reflexivity.
Qed.

Lemma month_day_is_valid n leapyear :
  0 <= n < 365 -> month_day_valid n leapyear = true.
Proof.
  intros Hn.
  assert (H : forallb (fun i => month_day_valid (Z.of_nat i) true
                                && month_day_valid (Z.of_nat i) false)
                (seq 0 365) = true) by (vm_compute; reflexivity).
  rewrite forallb_forall in H. specialize (H (Z.to_nat n)).
  rewrite Z2Nat.id in H by lia.
  assert (Hin : In (Z.to_nat n) (seq 0 365)) by (apply in_seq; lia).
  apply H in Hin. apply andb_true_iff in Hin as [Ht Hf].
  destruct leapyear; assumption.
Qed.

Lemma _ord2ymd_valid n :
  0 < n <= _MAXORDINAL ->
  let '(y, m, d) := _ord2ymd n in
  1 <= y <= 9999 /\ 1 <= m <= 12 /\ 1 <= d <= _days_in_month y m.
Proof.
  intros Hn. pose proof (_ord2ymd_range n Hn) as Hrange. revert Hrange.
  unfold _ord2ymd, _DI400Y, _DI100Y, _DI4Y.
  set (n0 := n - 1).
  set (a := n0 / 146097). set (r400 := n0 mod 146097).
  set (b := r400 / 36524). set (r100 := r400 mod 36524).
  set (c := r100 / 1461). set (r4 := r100 mod 1461).
  set (d := r4 / 365). set (r := r4 mod 365).
  assert (Hdec : 0 <= b <= 4 /\ 0 <= c <= 24 /\ 0 <= d <= 4 /\ 0 <= r < 365).
  { subst a r400 b r100 c r4 d r n0. Z.div_mod_to_equations. lia. }
  destruct Hdec as (Hb & Hc & Hd & Hr).
  clearbody a b c d r. clear n0 r400 r100 r4.
  destruct (Z.eqb_spec d 4) as [Ed|Ed]; [|destruct (Z.eqb_spec b 4) as [Eb|Eb]];
    cbn [orb].
  - intros (Hy & _ & _). unfold _days_in_month. simpl. lia.
  - intros (Hy & _ & _). unfold _days_in_month. simpl. lia.
  - pose proof (month_day_is_valid r
                  ((d =? 3) && (negb (c =? 24) || (b =? 3))) Hr) as Hmd.
    unfold month_day_valid, month_day in Hmd.
    match goal with |- context [if ?c then _ else _] => destruct c end;
      intros (Hy & _ & _); unfold _days_in_month;
      rewrite _is_leap_split by lia; lia.
Qed.

Lemma of_us_valid t :
  0 < t / US_PER_DAY <= _MAXORDINAL -> valid (of_us t) = true.
Proof.
  intros Hd. unfold of_us.
  pose proof (_ord2ymd_valid _ Hd) as Hymd.
  destruct (_ord2ymd (t / US_PER_DAY)) as [[y m] d].
  unfold valid, MINYEAR, MAXYEAR, US_PER_DAY, US_PER_SECOND in *.
  cbn [year month day hour minute second microsecond].
  destruct Hymd as (Hy & Hm & Hdd).
  repeat (apply andb_true_iff; split); apply Z.leb_le; try lia;
    Z.div_mod_to_equations; lia.
Qed.

(** What [datetime + timedelta] returns is a valid datetime. *)
Lemma add_valid d delta r : add d delta = Ok r -> valid r = true.
Proof.
  unfold add. destruct (_ && _) eqn:E; [|discriminate].
  intros [= <-]. apply of_us_valid. lia.
Qed.

Lemma fromisoformat_valid s d : fromisoformat s = Ok d -> valid d = true.
Proof.
  unfold fromisoformat.
  repeat match goal with
         | |- context [match ?x with _ => _ end] =>
             match x with
             | valid _ => fail 1
             | _ => destruct x; try discriminate
             end
         end.
  match goal with |- context [valid ?r] => destruct (valid r) eqn:E end;
    [|discriminate].
  intros [= <-]. exact E.
Qed.

Lemma text_lt_isoformat a b :
  printable a = true -> printable b = true ->
  DatabaseManager.text_lt (isoformat a) (isoformat b) = lt a b.
Proof.
  intros Ha Hb. unfold text_lt, String.ltb, lt.
  rewrite isoformat_compare by assumption. reflexivity.
Qed.

End DatetimeFacts.

(* ===================================================================== *)
(** * The store: what each method returns and leaves behind *)
(* ===================================================================== *)

Ltac unfold_db :=
  unfold DatabaseManager.save_task, DatabaseManager.load_tasks,
    DatabaseManager.get_task_by_id, DatabaseManager.delete_task,
    DatabaseManager.delete_old_tasks, DatabaseManager.save_config,
    DatabaseManager.load_config, DatabaseManager.get_task_statistics,
    get_connection, execute, commit, sqlite_call,
    try_except, bind, ret, get, modify, lift, raise.

(** The outcomes of the next four sqlite3 calls, case by case. *)
(** Reduction that leaves the calendar alone. *)
Ltac step :=
  cbn -[Datetime.isoformat Datetime.timedelta Datetime.sub Datetime.add].

Ltac split_faults fs :=
  destruct fs as [|[?|] [|[?|] [|[?|] [|[?|] fs]]]]; step.

Lemma row_of_task_of k r : row_of (task_of k r) = r.
Proof. destruct r; reflexivity. Qed.

Lemma task_of_row_of t : task_of (id t) (row_of t) = t.
Proof. destruct t; reflexivity. Qed.

Lemma save_task_cases task db :
  (exists fs, save_task task db
     = (Ok true, {| disk := sql_insert_or_replace task (disk db); faults := fs |}))
  \/ (exists fs, save_task task db = (Ok false, {| disk := disk db; faults := fs |})).
Proof.
  destruct db as [d fs]. unfold_db. simpl.
  split_faults fs; eauto.
Qed.

Lemma save_task_healthy task db :
  faults db = [] ->
  save_task task db
  = (Ok true, {| disk := sql_insert_or_replace task (disk db); faults := [] |}).
Proof. destruct db as [d fs]; simpl; intros ->. reflexivity. Qed.

Lemma get_task_by_id_cases task_id db :
  exists r fs,
    get_task_by_id task_id db = (Ok r, {| disk := disk db; faults := fs |})
    /\ (r = None \/ r = task_of task_id <$> scheduled_tasks (disk db) !! task_id).
Proof.
  destruct db as [d fs]. unfold_db. simpl.
  split_faults fs; eauto;
    unfold sql_select_by_id; destruct (scheduled_tasks d !! task_id); simpl; eauto.
Qed.

Lemma get_task_by_id_healthy task_id db :
  faults db = [] ->
  get_task_by_id task_id db
  = (Ok (task_of task_id <$> scheduled_tasks (disk db) !! task_id), db).
Proof.
  destruct db as [d fs]; simpl; intros ->. unfold_db. simpl.
  unfold sql_select_by_id. destruct (scheduled_tasks d !! task_id); reflexivity.
Qed.

Lemma load_tasks_cases db :
  exists l fs,
    DatabaseManager.load_tasks db = (Ok l, {| disk := disk db; faults := fs |})
    /\ (l = [] \/ l = loaded (disk db)).
Proof.
  destruct db as [d fs]. unfold_db. simpl.
  split_faults fs; eauto.
Qed.

Lemma load_tasks_healthy db :
  faults db = [] ->
  DatabaseManager.load_tasks db = (Ok (loaded (disk db)), db).
Proof. destruct db as [d fs]; simpl; intros ->. reflexivity. Qed.

(** ** The list [load_tasks] returns *)

Lemma elem_of_select_all d k r :
  (k, r) ∈ sql_select_all d <-> scheduled_tasks d !! k = Some r.
Proof.
  unfold sql_select_all. rewrite merge_sort_Permutation.
  apply elem_of_map_to_list.
Qed.

Lemma elem_of_loaded d t :
  t ∈ loaded d <-> scheduled_tasks d !! id t = Some (row_of t).
Proof.
  unfold loaded. rewrite list_elem_of_fmap. split.
  - intros ([k r] & -> & Hin). simpl. apply elem_of_select_all in Hin.
    rewrite Hin, row_of_task_of. reflexivity.
  - intros Hl. exists (id t, row_of t). split.
    + symmetry. apply task_of_row_of.
    + apply elem_of_select_all. exact Hl.
Qed.

(** [next((t for t in tasks if t.id == task_id), None)] finds the row of
    the key. *)
Lemma find_loaded d task_id :
  find (fun t => String.eqb (id t) task_id) (loaded d)
  = task_of task_id <$> scheduled_tasks d !! task_id.
Proof.
  destruct (find _ (loaded d)) as [t|] eqn:Hfind.
  - apply find_some in Hfind as [Hin Heq].
    apply String.eqb_eq in Heq. subst task_id.
    apply list_elem_of_In, elem_of_loaded in Hin. rewrite Hin. simpl.
    rewrite task_of_row_of. reflexivity.
  - destruct (scheduled_tasks d !! task_id) as [r|] eqn:Hr; [|reflexivity].
    exfalso.
    assert (Hin : task_of task_id r ∈ loaded d)
      by (apply elem_of_loaded; simpl; rewrite row_of_task_of; exact Hr).
    apply list_elem_of_In in Hin.
    apply (find_none _ _ Hfind) in Hin. simpl in Hin.
    rewrite String.eqb_refl in Hin. discriminate.
Qed.

(** ** Retention *)

Lemma old_task_expired cutoff_str r : old_task cutoff_str r = expired cutoff_str r.
Proof.
  unfold old_task, expired, retention_stamp.
  destruct r as [n st wc s c sa [ca|] sc ec em]; destruct s; simpl;
    try reflexivity; try (destruct (text_lt ca cutoff_str); reflexivity).
Qed.

Lemma delete_old_tasks_cases days now db :
  exists n fs d',
    DatabaseManager.delete_old_tasks days now db
    = (Ok n, {| disk := d'; faults := fs |})
    /\ ((n = 0 /\ d' = disk db)
        \/ exists delta cutoff,
             Datetime.timedelta days 0 0 = Ok delta
             /\ Datetime.sub now delta = Ok cutoff
             /\ n = fst (sql_delete_old (Datetime.isoformat cutoff) (disk db))
             /\ d' = snd (sql_delete_old (Datetime.isoformat cutoff) (disk db))).
Proof.
  destruct db as [d fs]. unfold_db. step.
  destruct (Datetime.timedelta days 0 0) as [delta|e]; step;
    [|do 3 eexists; split; [reflexivity|left; split; reflexivity]].
  destruct (Datetime.sub now delta) as [cutoff|e] eqn:Hcut; step;
    [|do 3 eexists; split; [reflexivity|left; split; reflexivity]].
  split_faults fs;
    (do 3 eexists; split; [reflexivity|]);
    first [left; split; reflexivity
          | right; exists delta, cutoff; repeat split; assumption].
Qed.

Lemma delete_old_tasks_healthy days now db delta cutoff :
  faults db = [] ->
  Datetime.timedelta days 0 0 = Ok delta ->
  Datetime.sub now delta = Ok cutoff ->
  DatabaseManager.delete_old_tasks days now db
  = (Ok (fst (sql_delete_old (Datetime.isoformat cutoff) (disk db))),
     {| disk := snd (sql_delete_old (Datetime.isoformat cutoff) (disk db));
        faults := [] |}).
Proof.
  destruct db as [d fs]. step. intros -> Hd Hc. unfold_db. step.
  rewrite Hd. step. rewrite Hc. reflexivity.
Qed.

Lemma sub_add d delta : Datetime.sub d delta = Datetime.add d (- delta).
Proof. reflexivity. Qed.

Lemma sub_valid d delta r : Datetime.sub d delta = Ok r -> Datetime.valid r = true.
Proof. rewrite sub_add. apply add_valid. Qed.

Lemma sub_to_us d delta r :
  Datetime.sub d delta = Ok r -> Datetime.to_us r = Datetime.to_us d - delta.
Proof. rewrite sub_add. intros H. rewrite (add_to_us _ _ _ H). lia. Qed.

(** For a stamp that is the ISO text of a datetime, below the cutoff's text
    means earlier than the cutoff. *)
Lemma expired_isoformat r t cutoff :
  Datetime.valid t = true -> Datetime.valid cutoff = true ->
  retention_stamp r = Datetime.isoformat t ->
  expired (Datetime.isoformat cutoff) r
  = terminal (col_status r) && (Datetime.to_us t <? Datetime.to_us cutoff).
Proof.
  intros Ht Hc Hstamp. unfold expired. rewrite Hstamp.
  f_equal. rewrite text_lt_isoformat by (apply valid_printable; assumption).
  apply lt_to_us; assumption.
Qed.

Lemma rowcount_delete_old cutoff_str d :
  fst (sql_delete_old cutoff_str d)
  = Z.of_nat (size (scheduled_tasks d))
    - Z.of_nat (size (scheduled_tasks (snd (sql_delete_old cutoff_str d)))).
Proof. reflexivity. Qed.

Lemma lookup_delete_old cutoff_str d k :
  scheduled_tasks (snd (sql_delete_old cutoff_str d)) !! k
  = match scheduled_tasks d !! k with
    | Some r => if expired cutoff_str r then None else Some r
    | None => None
    end.
Proof.
  unfold sql_delete_old. simpl. rewrite map_lookup_filter.
  destruct (scheduled_tasks d !! k) as [r|]; simpl; [|reflexivity].
  rewrite old_task_expired.
  destruct (expired cutoff_str r); simpl; reflexivity.
Qed.

(* ===================================================================== *)
(** * The scheduler: status updates *)
(* ===================================================================== *)

Lemma set_db_same s : set_db (db s) s = s.
Proof. destruct s; reflexivity. Qed.

Lemma with_status_id task st kw now : id (with_status task st kw now) = id task.
Proof. unfold with_status. repeat case_bool_decide; reflexivity. Qed.

Lemma insert_or_replace_with_status task_id r st kw now d :
  sql_insert_or_replace (with_status (task_of task_id r) st kw now) d
  = with_tasks d (<[task_id := updated_row task_id r st kw now]> (scheduled_tasks d)).
Proof. unfold sql_insert_or_replace. rewrite with_status_id. reflexivity. Qed.

(** Whatever sqlite3 does, [update_task_status] returns, and either leaves
    the tables alone or rewrites the one row of its task. *)
Lemma update_task_status_cases task_id st kw now s :
  exists d',
    update_task_status task_id st kw now s = (Ok tt, set_db d' s)
    /\ (disk d' = disk (db s)
        \/ exists r,
             scheduled_tasks (disk (db s)) !! task_id = Some r
             /\ disk d' = with_tasks (disk (db s))
                  (<[task_id := updated_row task_id r st kw now]>
                     (scheduled_tasks (disk (db s))))).
Proof.
  unfold update_task_status, bind, on_db.
  destruct (get_task_by_id_cases task_id (db s)) as (r & fs & -> & Hr).
  destruct Hr as [-> | ->].
  - simpl. eexists; split; [reflexivity|]. left. reflexivity.
  - destruct (scheduled_tasks (disk (db s)) !! task_id) as [row|] eqn:Hrow; simpl.
    + match goal with |- context [save_task ?t ?d] =>
        destruct (save_task_cases t d) as [[fs' ->] | [fs' ->]] end; simpl;
        (eexists; split; [reflexivity|]); simpl.
      * right. exists row. split; [reflexivity|].
        apply insert_or_replace_with_status.
      * left. reflexivity.
    + eexists; split; [reflexivity|]. left. reflexivity.
Qed.

Lemma update_task_status_healthy task_id st kw now s r :
  faults (db s) = [] ->
  scheduled_tasks (disk (db s)) !! task_id = Some r ->
  update_task_status task_id st kw now s
  = (Ok tt, set_db {| disk := with_tasks (disk (db s))
                        (<[task_id := updated_row task_id r st kw now]>
                           (scheduled_tasks (disk (db s))));
                      faults := [] |} s).
Proof.
  intros Hf Hr. unfold update_task_status, bind, on_db.
  rewrite (get_task_by_id_healthy _ _ Hf), Hr. simpl.
  rewrite save_task_healthy by exact Hf. simpl.
  rewrite insert_or_replace_with_status. reflexivity.
Qed.

Lemma updated_row_workflow_count task_id r st kw now :
  col_workflow_count (updated_row task_id r st kw now) = col_workflow_count r.
Proof.
  unfold updated_row, with_status. repeat case_bool_decide; reflexivity.
Qed.

Lemma sched_load_tasks_cases s :
  exists l d',
    TaskScheduler.load_tasks s = (Ok l, set_db d' s)
    /\ disk d' = disk (db s)
    /\ (l = [] \/ l = loaded (disk (db s))).
Proof.
  unfold TaskScheduler.load_tasks, on_db.
  destruct (load_tasks_cases (db s)) as (l & fs & -> & Hl).
  eexists _, _. split; [reflexivity|]. split; [reflexivity | exact Hl].
Qed.

Lemma sched_load_tasks_healthy s :
  faults (db s) = [] ->
  TaskScheduler.load_tasks s = (Ok (loaded (disk (db s))), s).
Proof.
  intros Hf. unfold TaskScheduler.load_tasks, on_db.
  rewrite (load_tasks_healthy _ Hf), set_db_same. reflexivity.
Qed.

(** ** The worker's loop *)

(** A loop no exception leaves counts every iteration once. *)
Lemma run_iterations_counts w l c :
  (forall i e, i ∈ l -> w i <> Escapes e) ->
  exists c',
    run_iterations w l c = Ok c'
    /\ n_success c' + n_error c' = n_success c + n_error c + Z.of_nat (length l)
    /\ n_success c <= n_success c' /\ n_error c <= n_error c'.
Proof.
  revert c. induction l as [|i l IH]; intros c Hw; simpl.
  - exists c. split; [reflexivity|]. lia.
  - assert (Hl : forall j e, j ∈ l -> w j <> Escapes e)
      by (intros j e Hj; apply Hw; right; exact Hj).
    destruct (w i) as [|e|e] eqn:Hi.
    + destruct (IH {| n_success := n_success c + 1; n_error := n_error c;
                      error_messages := error_messages c |} Hl)
        as (c' & -> & Hsum & Hs & He). simpl in *.
      exists c'. split; [reflexivity|]. lia.
    + destruct (IH {| n_success := n_success c; n_error := n_error c + 1;
                      error_messages :=
                        error_messages c
                        ++ ["第" +:+ pretty (i + 1)%nat +:+ "次: " +:+ e] |} Hl)
        as (c' & -> & Hsum & Hs & He). simpl in *.
      exists c'. split; [reflexivity|]. lia.
    + exfalso. apply (Hw i e); [left | exact Hi].
Qed.

(** A run that meets no storage failure and lets no exception out of its
    loop ends with a terminal status and the counts of all iterations. *)
Lemma execute_task_completes s task_id w r :
  faults (db s) = [] ->
  scheduled_tasks (disk (db s)) !! task_id = Some r ->
  0 <= col_workflow_count r ->
  (forall i e, (i < Z.to_nat (col_workflow_count r))%nat -> outcome w i <> Escapes e) ->
  exists r',
    scheduled_tasks (disk (db (snd (execute_task task_id w s)))) !! task_id = Some r'
    /\ col_status r' = (if col_error_count r' =? 0 then COMPLETED else FAILED)
    /\ col_success_count r' + col_error_count r' = col_workflow_count r'
    /\ col_workflow_count r' = col_workflow_count r.
Proof.
  intros Hf Hr Hwc Hesc.
  unfold execute_task, bind at 1, modify. cbn beta iota.
  set (s0 := set_current_task_id (Some task_id) s).
  assert (Hf0 : faults (db s0) = []) by exact Hf.
  assert (Hr0 : scheduled_tasks (disk (db s0)) !! task_id = Some r) by exact Hr.
  unfold bind at 1.
  rewrite (update_task_status_healthy _ _ _ _ _ _ Hf0 Hr0).
  set (r1 := updated_row task_id r RUNNING no_kwargs (started w)).
  match goal with |- context [set_db ?d s0] => set (s1 := set_db d s0) end.
  assert (Hf1 : faults (db s1) = []) by reflexivity.
  assert (Hr1 : scheduled_tasks (disk (db s1)) !! task_id = Some r1)
    by apply lookup_insert_eq.
  unfold bind at 1. rewrite (sched_load_tasks_healthy _ Hf1).
  rewrite find_loaded, Hr1. cbn [fmap option_fmap option_map].
  destruct (run_iterations_counts (outcome w)
              (seq 0 (Z.to_nat (col_workflow_count r)))
              {| n_success := 0; n_error := 0; error_messages := [] |})
    as (c & Hc & Hsum & Hs & He).
  { intros i e Hi. apply Hesc. apply elem_of_seq in Hi. lia. }
  rewrite length_seq in Hsum. simpl in Hsum.
  unfold finally, try_except, bind at 1, lift.
  change (workflow_count (task_of task_id r1)) with (col_workflow_count r).
  rewrite Hc.
  match goal with |- context [update_task_status task_id ?st ?kw ?now s1] =>
    rewrite (update_task_status_healthy task_id st kw now s1 r1 Hf1 Hr1);
    exists (updated_row task_id r1 st kw now) end.
  simpl. split; [apply lookup_insert_eq|].
  destruct (n_error c =? 0) eqn:E; simpl; rewrite ?E; repeat split; try lia.
Qed.

(** Whatever the store does, such a run leaves the row as it was, or
    marked Running, or terminal with the counts of all iterations. *)
Lemma execute_task_outcomes s task_id w r :
  scheduled_tasks (disk (db s)) !! task_id = Some r ->
  0 <= col_workflow_count r ->
  (forall i e, (i < Z.to_nat (col_workflow_count r))%nat -> outcome w i <> Escapes e) ->
  exists r',
    scheduled_tasks (disk (db (snd (execute_task task_id w s)))) !! task_id = Some r'
    /\ col_workflow_count r' = col_workflow_count r
    /\ (r' = r
        \/ r' = updated_row task_id r RUNNING no_kwargs (started w)
        \/ (col_status r' = (if col_error_count r' =? 0 then COMPLETED else FAILED)
            /\ col_success_count r' + col_error_count r' = col_workflow_count r')).
Proof.
  intros Hr Hwc Hesc.
  unfold execute_task, bind at 1, modify. cbn beta iota.
  set (s0 := set_current_task_id (Some task_id) s).
  unfold bind at 1.
  destruct (update_task_status_cases task_id RUNNING no_kwargs (started w) s0)
    as (d1 & -> & Hd1).
  set (s1 := set_db d1 s0).
  assert (H1 : exists r1,
             scheduled_tasks (disk (db s1)) !! task_id = Some r1
             /\ col_workflow_count r1 = col_workflow_count r
             /\ (r1 = r \/ r1 = updated_row task_id r RUNNING no_kwargs (started w))).
  { destruct Hd1 as [Hd1 | (r0 & Hr0 & Hd1)]; cbn [s1 db set_db]; rewrite Hd1.
    - exists r. split; [exact Hr|]. split; [reflexivity | left; reflexivity].
    - cbn [s0 db set_current_task_id] in Hr0. rewrite Hr in Hr0.
      injection Hr0 as <-. eexists. split; [apply lookup_insert_eq|].
      split; [reflexivity | right; reflexivity]. }
  destruct H1 as (r1 & Hr1 & Hwc1 & Hcase1). clearbody s1. clear Hd1.
  unfold bind at 1.
  destruct (sched_load_tasks_cases s1) as (l & d2 & -> & Hd2 & Hl).
  set (s2 := set_db d2 s1).
  assert (Hr2 : scheduled_tasks (disk (db s2)) !! task_id = Some r1)
    by (cbn [s2 db set_db]; rewrite Hd2; exact Hr1).
  clearbody s2.
  assert (Hkeep : exists r',
             scheduled_tasks (disk (db s2)) !! task_id = Some r'
             /\ col_workflow_count r' = col_workflow_count r
             /\ (r' = r
                 \/ r' = updated_row task_id r RUNNING no_kwargs (started w)
                 \/ (col_status r'
                     = (if col_error_count r' =? 0 then COMPLETED else FAILED)
                     /\ col_success_count r' + col_error_count r'
                        = col_workflow_count r')))
    by (exists r1; split; [exact Hr2|]; split; [exact Hwc1|];
        destruct Hcase1; [left | right; left]; assumption).
  destruct Hl as [-> | ->]; [exact Hkeep|].
  rewrite find_loaded.
  assert (Hr1' : scheduled_tasks (disk (db s1)) !! task_id = Some r1) by exact Hr1.
  rewrite Hr1. cbn [fmap option_fmap option_map].
  destruct (run_iterations_counts (outcome w)
              (seq 0 (Z.to_nat (col_workflow_count r)))
              {| n_success := 0; n_error := 0; error_messages := [] |})
    as (c & Hc & Hsum & Hs & He).
  { intros i e Hi. apply Hesc. apply elem_of_seq in Hi. lia. }
  rewrite length_seq in Hsum. simpl in Hsum.
  unfold finally, try_except, bind at 1, lift.
  change (workflow_count (task_of task_id r1)) with (col_workflow_count r1).
  rewrite Hwc1, Hc.
  match goal with |- context [update_task_status task_id ?st ?kw ?now s2] =>
    destruct (update_task_status_cases task_id st kw now s2) as (d3 & -> & Hd3)
  end.
  cbn [fst snd modify set_current_task_id db set_db].
  destruct Hd3 as [-> | (r0 & Hr0 & ->)]; [exact Hkeep|].
  rewrite Hr2 in Hr0. injection Hr0 as <-.
  eexists. split; [apply lookup_insert_eq|].
  split; [rewrite updated_row_workflow_count; exact Hwc1|]. right. right.
  destruct (n_error c =? 0) eqn:E; simpl; rewrite ?E; split; try reflexivity; lia.
Qed.

(** ** Computations that keep a property of the tables *)

Lemma keeps_ret {A} P (a : A) : keeps P (ret a).
Proof. intros s H. exact H. Qed.

Lemma keeps_lift {A} P (r : Res A) : keeps P (lift r).
Proof. intros s H. exact H. Qed.

Lemma keeps_get P : keeps P get.
Proof. intros s H. exact H. Qed.

Lemma keeps_set_current_task_id P c : keeps P (modify (set_current_task_id c)).
Proof. intros s H. exact H. Qed.

Lemma keeps_bind {A B} P (m : M Scheduler A) (k : A -> M Scheduler B) :
  keeps P m -> (forall a, keeps P (k a)) -> keeps P (bind m k).
Proof.
  intros Hm Hk s H. unfold bind. specialize (Hm s H).
  destruct (m s) as [[a|e] s']; simpl in *; [apply Hk|]; exact Hm.
Qed.

Lemma keeps_try_except {A} P (m : M Scheduler A) h :
  keeps P m -> (forall e, keeps P (h e)) -> keeps P (try_except m h).
Proof.
  intros Hm Hh s H. unfold try_except. specialize (Hm s H).
  destruct (m s) as [[a|e] s']; simpl in *; [|apply Hh]; exact Hm.
Qed.

Lemma keeps_finally {A} P (m : M Scheduler A) f :
  keeps P m -> keeps P f -> keeps P (finally m f).
Proof.
  intros Hm Hf s H. unfold finally. specialize (Hm s H).
  destruct (m s) as [r s']. simpl in Hm. specialize (Hf s' Hm).
  destruct (f s') as [[u|e] s'']; exact Hf.
Qed.

Lemma keeps_start_thread P task_id w : keeps P (start_thread task_id w).
Proof. intros s H. exact H. Qed.

Lemma keeps_load_tasks P : keeps P TaskScheduler.load_tasks.
Proof.
  intros s H. unfold TaskScheduler.load_tasks, on_db, tables_of in *.
  destruct (load_tasks_cases (db s)) as (l & fs & -> & _). exact H.
Qed.

(** A status update touches the row of its own task only. *)
Lemma keeps_update_task_status k v task_id st kw now :
  k <> task_id -> keeps (row_is k v) (update_task_status task_id st kw now).
Proof.
  intros Hk s H. unfold row_is, tables_of in *.
  destruct (update_task_status_cases task_id st kw now s) as (d' & E & Hd).
  rewrite E. simpl. destruct Hd as [-> | (r & _ & ->)]; [exact H|]. simpl.
  rewrite lookup_insert_ne by congruence. exact H.
Qed.

Create HintDb keeps discriminated.
#[local] Hint Resolve keeps_ret keeps_lift keeps_get keeps_set_current_task_id
  keeps_load_tasks keeps_update_task_status keeps_start_thread : keeps.
#[local] Hint Extern 2 (keeps _ (bind _ _)) =>
  apply keeps_bind; [|intro] : keeps.
#[local] Hint Extern 2 (keeps _ (try_except _ _)) =>
  apply keeps_try_except; [|intro] : keeps.
#[local] Hint Extern 2 (keeps _ (finally _ _)) => apply keeps_finally : keeps.

(** So does a whole run of the worker. *)
Lemma keeps_execute_task k v task_id w :
  k <> task_id -> keeps (row_is k v) (execute_task task_id w).
Proof.
  intros Hk. unfold execute_task.
  apply keeps_bind; [auto with keeps | intros _].
  apply keeps_bind; [auto with keeps | intros _].
  apply keeps_bind; [auto with keeps | intros tasks].
  destruct (find _ tasks) as [task|]; auto 8 with keeps.
Qed.

(** The scan of the dispatch writes nothing. *)
Lemma keeps_scan_pending P now w l : keeps P (scan_pending now w l).
Proof.
  induction l as [|t l IH]; simpl.
  - apply keeps_ret.
  - apply keeps_bind; [apply keeps_get | intros s].
    apply keeps_bind; [apply keeps_lift | intros due].
    destruct (Datetime.ge now due); [apply keeps_start_thread | apply IH].
Qed.

(** ** The polling loop never receives an exception *)

Lemma try_except_default_ok {S A} (m : M S A) (a : A) s :
  exists a', fst (try_except m (fun _ => ret a) s) = Ok a'.
Proof.
  unfold try_except. destruct (m s) as [[x|e] s']; simpl; eauto.
Qed.

Lemma _auto_create_task_ok n1 n2 s : fst (_auto_create_task n1 n2 s) = Ok tt.
Proof.
  unfold _auto_create_task.
  destruct (try_except_default_ok
              (s <- get ;;
               if auto_create_enabled (config s)
               then task <- create_daily_task None n1 n2 ;; ret tt
               else ret tt) tt s) as [[] H].
  exact H.
Qed.

Lemma _check_and_execute_tasks_ok now w s :
  fst (_check_and_execute_tasks now w s) = Ok tt.
Proof.
  unfold _check_and_execute_tasks, try_except.
  destruct (bind _ _ s) as [[[]|e] s']; reflexivity.
Qed.

Lemma run_jobs_ok t js s : fst (run_jobs t js s) = Ok tt.
Proof.
  revert s. induction js as [|j js IH]; intros s; simpl; [reflexivity|].
  unfold bind.
  destruct (should_run t j).
  - destruct j.
    + pose proof (_auto_create_task_ok (now_exec t) (now_created t) s) as H.
      destruct (_auto_create_task _ _ s) as [r s']. simpl in H. subst r. apply IH.
    + pose proof (_check_and_execute_tasks_ok (now_check t) (worker t) s) as H.
      destruct (_check_and_execute_tasks _ _ s) as [r s']. simpl in H. subst r.
      apply IH.
  - simpl. apply IH.
Qed.

Lemma _run_scheduler_ok ticks s : fst (_run_scheduler ticks s) = Ok tt.
Proof.
  revert s. induction ticks as [|t ticks IH]; intros s; simpl; [reflexivity|].
  unfold bind at 1, get. destruct (is_running s); [|reflexivity].
  unfold bind at 1, run_pending, bind at 1, get.
  pose proof (run_jobs_ok t (jobs s) s) as H.
  destruct (run_jobs t (jobs s) s) as [r s']. simpl in H. subst r. apply IH.
Qed.

(** ** The dispatch scan and the specification's rule *)

Lemma task_execute_time_spec cfg task :
  task_execute_time task (auto_execute_delay_hours cfg) = due_time_spec cfg task.
Proof.
  unfold task_execute_time, due_time_spec, kind_of_id.
  destruct (Datetime.fromisoformat (created_at task)); simpl; [|reflexivity].
  destruct (String.prefix "test_" (id task)); reflexivity.
Qed.

Lemma timedelta_us days hours minutes delta :
  Datetime.timedelta days hours minutes = Ok delta ->
  delta = ((days * 24 + hours) * 60 + minutes) * 60 * Datetime.US_PER_SECOND.
Proof.
  unfold Datetime.timedelta. destruct (_ <=? _); [|discriminate].
  intros [= <-]. reflexivity.
Qed.

Lemma res_bind_ok {A B} (a : A) (k : A -> Res B) : res_bind (Ok a) k = k a.
Proof. reflexivity. Qed.

Lemma due_time_spec_parsed cfg task created :
  Datetime.fromisoformat (created_at task) = Ok created ->
  due_time_spec cfg task
  = res_bind (match kind_of_id (id task) with
              | Immediate => Datetime.timedelta 0 0 1
              | Normal => Datetime.timedelta 0 (auto_execute_delay_hours cfg) 0
              end) (Datetime.add created).
Proof.
  intros Hc. unfold due_time_spec. rewrite Hc, res_bind_ok.
  destruct (kind_of_id (id task)); reflexivity.
Qed.

Lemma timedelta_offset cfg task delta :
  match kind_of_id (id task) with
  | Immediate => Datetime.timedelta 0 0 1
  | Normal => Datetime.timedelta 0 (auto_execute_delay_hours cfg) 0
  end = Ok delta ->
  delta = offset_us cfg task.
Proof.
  unfold offset_us. destruct (kind_of_id (id task)); intros H;
    apply timedelta_us in H; lia.
Qed.

(** A due time is the instant of creation plus the delay of the kind, and
    the scan's test compares instants. *)
Lemma due_time_spec_instant cfg task created due now :
  Datetime.fromisoformat (created_at task) = Ok created ->
  due_time_spec cfg task = Ok due ->
  Datetime.valid now = true ->
  Datetime.to_us due = Datetime.to_us created + offset_us cfg task
  /\ Datetime.ge now due
     = (Datetime.to_us created + offset_us cfg task <=? Datetime.to_us now).
Proof.
  intros Hc Hdue Hnow. rewrite (due_time_spec_parsed _ _ _ Hc) in Hdue.
  destruct (match kind_of_id (id task) with
            | Immediate => Datetime.timedelta 0 0 1
            | Normal => Datetime.timedelta 0 (auto_execute_delay_hours cfg) 0
            end) as [delta|e] eqn:Ht; [|discriminate Hdue].
  rewrite res_bind_ok in Hdue. apply timedelta_offset in Ht. subst delta.
  pose proof (add_to_us _ _ _ Hdue) as Hus.
  split; [exact Hus|].
  rewrite (ge_to_us now due Hnow (add_valid _ _ _ Hdue)), Hus. reflexivity.
Qed.

(** The scan starts a worker for the first due task, and for no other. *)
Lemma scan_pending_first_due now w l s :
  scan_pending now w l s
  = match first_due (config s) now l with
    | Ok (Some task) => (Ok tt, with_thread (id task) w s)
    | Ok None => (Ok tt, s)
    | Raise e => (Raise e, s)
    end.
Proof.
  induction l as [|task l IH]; simpl; [reflexivity|].
  unfold bind at 1, get. unfold bind at 1, lift.
  rewrite task_execute_time_spec.
  destruct (due_time_spec (config s) task) as [due|e]; [|reflexivity].
  destruct (Datetime.ge now due); [reflexivity | exact IH].
Qed.

Lemma update_config_config kwargs now s :
  config (snd (update_config kwargs now s)) = foldl setattr (config s) kwargs.
Proof.
  unfold update_config, bind at 1, modify. cbn beta iota.
  set (s1 := set_config _ s).
  unfold bind at 1, save_config, bind at 1, get, on_db. cbn beta iota.
  destruct (DatabaseManager.save_config (config s1) now (db s1)) as [[b|e] d] eqn:E.
  - cbn beta iota. unfold bind at 1. cbn beta iota.
    destruct (is_running (set_db d s1)); [|reflexivity].
    unfold stop_scheduler, start_scheduler, bind, modify, get, ret. simpl.
    destruct (auto_create_enabled _); reflexivity.
  - exfalso. revert E. unfold_db.
    destruct (db s1) as [dk fs]. simpl. split_faults fs; discriminate.
Qed.

(** ** Creation *)

Lemma create_daily_task_inv wc n c s task s' :
  create_daily_task wc n c s = (Ok task, s') ->
  exists e,
    daily_target (config s) n = Ok e
    /\ id task = "task_" +:+ Datetime.strftime_Ymd_HM e
    /\ created_at task = Datetime.isoformat c
    /\ scheduled_tasks (disk (db s'))
       = <[id task := row_of task]> (scheduled_tasks (disk (db s))).
Proof.
  unfold create_daily_task, daily_target, bind at 1, get. cbn beta iota.
  unfold bind at 1, lift.
  destruct (Datetime.timedelta 0 (auto_execute_delay_hours (config s)) 0)
    as [delta|x]; [|discriminate]. cbn beta iota.
  unfold bind at 1. simpl res_bind.
  destruct (Datetime.add n delta) as [e|x]; [|discriminate]. cbn beta iota.
  unfold bind at 1, on_db.
  match goal with |- context [save_task ?t (db s)] =>
    destruct (save_task_cases t (db s)) as [[fs ->] | [fs ->]] end;
    cbn beta iota; [|discriminate].
  intros [= <- <-]. exists e. simpl. repeat split; reflexivity.
Qed.

Lemma create_immediate_task_inv wc n c s task s' :
  create_immediate_task wc n c s = (Ok task, s') ->
  exists e,
    immediate_target n = Ok e
    /\ id task = "test_" +:+ Datetime.strftime_Ymd_HMS e
    /\ created_at task = Datetime.isoformat c
    /\ scheduled_tasks (disk (db s'))
       = <[id task := row_of task]> (scheduled_tasks (disk (db s))).
Proof.
  unfold create_immediate_task, immediate_target, bind at 1, lift.
  destruct (Datetime.timedelta 0 0 1) as [delta|x]; [|discriminate].
  cbn beta iota. unfold bind at 1. simpl res_bind.
  destruct (Datetime.add n delta) as [e|x]; [|discriminate]. cbn beta iota.
  unfold bind at 1, on_db.
  match goal with |- context [save_task ?t (db s)] =>
    destruct (save_task_cases t (db s)) as [[fs ->] | [fs ->]] end;
    cbn beta iota; [|discriminate].
  intros [= <- <-]. exists e. simpl. repeat split; reflexivity.
Qed.

Lemma daily_target_printable cfg n e :
  daily_target cfg n = Ok e -> Datetime.printable e = true.
Proof.
  unfold daily_target. destruct (Datetime.timedelta _ _ _); simpl; [|discriminate].
  apply add_printable.
Qed.

Lemma immediate_target_printable n e :
  immediate_target n = Ok e -> Datetime.printable e = true.
Proof.
  unfold immediate_target. destruct (Datetime.timedelta _ _ _); simpl; [|discriminate].
  apply add_printable.
Qed.

(* ===================================================================== *)
(** * The worker, the threads and the dispatch *)
(* ===================================================================== *)

(** ** A whole run of the worker *)

(** When sqlite3 answers, a run on a stored task rewrites its row, and
    nothing else in the tables. *)
Lemma execute_task_healthy s task_id w r :
  faults (db s) = [] ->
  scheduled_tasks (disk (db s)) !! task_id = Some r ->
  execute_task task_id w s
  = (Ok tt,
     set_current_task_id None
       (set_db {| disk := with_tasks (disk (db s))
                    (<[task_id := final_row task_id r w]>
                       (scheduled_tasks (disk (db s))));
                  faults := [] |} s)).
Proof.
  intros Hf Hr.
  unfold execute_task, bind at 1, modify. cbn beta iota.
  set (s0 := set_current_task_id (Some task_id) s).
  assert (Hf0 : faults (db s0) = []) by exact Hf.
  assert (Hr0 : scheduled_tasks (disk (db s0)) !! task_id = Some r) by exact Hr.
  unfold bind at 1.
  rewrite (update_task_status_healthy _ _ _ _ _ _ Hf0 Hr0).
  set (r1 := updated_row task_id r RUNNING no_kwargs (started w)).
  match goal with |- context [set_db ?d s0] => set (s1 := set_db d s0) end.
  assert (Hf1 : faults (db s1) = []) by reflexivity.
  assert (Hr1 : scheduled_tasks (disk (db s1)) !! task_id = Some r1)
    by apply lookup_insert_eq.
  unfold bind at 1. rewrite (sched_load_tasks_healthy _ Hf1).
  rewrite find_loaded, Hr1. cbn [fmap option_fmap option_map].
  unfold finally, try_except, bind at 1, lift.
  change (workflow_count (task_of task_id r1)) with (col_workflow_count r).
  unfold final_row. fold r1. unfold iterations, no_counts.
  destruct (run_iterations (outcome w) (seq 0 (Z.to_nat (col_workflow_count r)))
              {| n_success := 0; n_error := 0; error_messages := [] |})
    as [c|e];
    match goal with |- context [update_task_status task_id ?st ?kw ?now s1] =>
      rewrite (update_task_status_healthy task_id st kw now s1 r1 Hf1 Hr1)
    end;
    cbn [modify fst snd]; f_equal;
    unfold s1, s0; destruct s as [run cur cfg js d th];
    cbn [set_current_task_id set_db db disk with_tasks scheduled_tasks
         scheduler_config is_running current_task_id config jobs threads];
    rewrite insert_insert_eq; reflexivity.
Qed.


(** Whatever the store does, a run returns normally, having changed only
    the database and [current_task_id]. *)
Lemma execute_task_cases s task_id w :
  exists d' cur,
    execute_task task_id w s = (Ok tt, set_current_task_id cur (set_db d' s))
    /\ (cur = None \/ cur = Some task_id).
Proof.
  unfold execute_task, bind at 1, modify. cbn beta iota.
  set (s0 := set_current_task_id (Some task_id) s).
  unfold bind at 1.
  destruct (update_task_status_cases task_id RUNNING no_kwargs (started w) s0)
    as (d1 & -> & _).
  unfold bind at 1.
  destruct (sched_load_tasks_cases (set_db d1 s0)) as (l & d2 & -> & _ & _).
  assert (set_db d2 (set_db d1 s0) = set_current_task_id (Some task_id) (set_db d2 s))
    as -> by (destruct s; reflexivity).
  destruct (find _ l) as [task|];
    [|exists d2, (Some task_id); split; [reflexivity|right; reflexivity]].
  unfold finally, try_except, bind at 1, lift.
  destruct (run_iterations _ _ _) as [c|e];
    match goal with |- context [update_task_status task_id ?st ?kw ?now ?s'] =>
      destruct (update_task_status_cases task_id st kw now s') as (d3 & -> & _)
    end;
    exists d3, None; (split; [destruct s; reflexivity|left; reflexivity]).
Qed.

Lemma execute_task_ok s task_id w : fst (execute_task task_id w s) = Ok tt.
Proof. destruct (execute_task_cases s task_id w) as (d' & cur & -> & _). reflexivity. Qed.

Lemma execute_task_threads s task_id w :
  threads (snd (execute_task task_id w s)) = threads s.
Proof. destruct (execute_task_cases s task_id w) as (d' & cur & -> & _). reflexivity. Qed.

Lemma final_row_status task_id r w :
  col_status (final_row task_id r w) = status_of_run w (col_workflow_count r).
Proof.
  unfold final_row, status_of_run, iterations, no_counts.
  destruct (run_iterations _ _ _) as [c|e]; [|reflexivity].
  destruct (n_error c =? 0); reflexivity.
Qed.

(** ** Threads *)

(** A thread's run is a run of [execute_task], the thread gone from the
    threads still to run. *)
Lemma run_thread_Some i s t :
  threads s !! i = Some t ->
  run_thread i s
  = (Ok tt,
     snd (execute_task (thread_task_id t) (thread_worker t)
            (set_threads (delete i (threads s)) s))).
Proof.
  intros Ht. unfold run_thread, bind at 1, get. rewrite Ht.
  unfold bind at 1, modify, try_except.
  pose proof (execute_task_ok (set_threads (delete i (threads s)) s)
                (thread_task_id t) (thread_worker t)) as Hok.
  destruct (execute_task _ _ _) as [[[]|e] s']; [reflexivity|discriminate Hok].
Qed.

Lemma run_thread_None i s : threads s !! i = None -> run_thread i s = (Ok tt, s).
Proof. intros Ht. unfold run_thread, bind at 1, get. rewrite Ht. reflexivity. Qed.

Lemma delete_last {A} (l : list A) x : delete (length l) (l ++ [x]) = l.
Proof. induction l as [|a l IH]; [reflexivity|]. cbn. f_equal. exact IH. Qed.

(** A thread that runs before anything else has happened does what a call
    of [execute_task] in its starter's place would have done. *)
Lemma run_thread_at_once task_id w s :
  run_thread (length (threads s)) (with_thread task_id w s)
  = (Ok tt, snd (execute_task task_id w s)).
Proof.
  rewrite (run_thread_Some _ _ (mk_thread task_id w)).
  - unfold with_thread. cbn [thread_task_id thread_worker threads set_threads].
    rewrite delete_last. destruct s; reflexivity.
  - unfold with_thread. cbn [threads set_threads].
    rewrite lookup_app_r, Nat.sub_diag by lia. reflexivity.
Qed.

(** ** One check of the polling loop *)

Lemma first_due_Some cfg now l task :
  first_due cfg now l = Ok (Some task) ->
  task ∈ l
  /\ exists due, due_time_spec cfg task = Ok due /\ Datetime.ge now due = true.
Proof.
  induction l as [|t l IH]; cbn [first_due]; [discriminate|].
  destruct (due_time_spec cfg t) as [due|e] eqn:Hd; [|discriminate].
  destruct (Datetime.ge now due) eqn:Hge.
  - intros [= <-]. split; [left|eauto].
  - intros H. destruct (IH H) as [Hin Hdue]. split; [right; exact Hin|exact Hdue].
Qed.

Lemma get_tasks_cases s :
  exists l d',
    get_tasks s
    = (Ok {| pending := filter (fun t => status t = PENDING) l;
             running := filter (fun t => status t = RUNNING) l;
             completed :=
               filter (fun t => status t ∈ [COMPLETED; FAILED; CANCELLED]) l |},
       set_db d' s)
    /\ disk d' = disk (db s)
    /\ (l = [] \/ l = loaded (disk (db s)))
    /\ (faults (db s) = [] -> l = loaded (disk (db s))).
Proof.
  destruct (decide (faults (db s) = [])) as [Hf|Hf].
  - exists (loaded (disk (db s))), (db s).
    unfold get_tasks, bind. rewrite (sched_load_tasks_healthy s Hf).
    rewrite set_db_same. auto.
  - destruct (sched_load_tasks_cases s) as (l & d' & Hl & Hd & Hcase).
    exists l, d'. unfold get_tasks, bind. rewrite Hl.
    split; [reflexivity|]. split; [exact Hd|]. split; [exact Hcase|].
    intros H. contradiction.
Qed.

Lemma pending_in_store_stored d t :
  t ∈ pending_in_store d ->
  status t = PENDING /\ scheduled_tasks d !! id t = Some (row_of t).
Proof.
  unfold pending_in_store. intros [Hs Ht]%list_elem_of_filter.
  split; [exact Hs|apply elem_of_loaded, Ht].
Qed.

(** Whatever the store does, a check returns normally; it has read the
    store and, for the first due task of what it read, started a thread. *)
Lemma _check_and_execute_tasks_cases now w s :
  exists d' l,
    disk d' = disk (db s)
    /\ (l = [] \/ l = pending_in_store (disk (db s)))
    /\ (faults (db s) = [] -> l = pending_in_store (disk (db s)) /\ d' = db s)
    /\ _check_and_execute_tasks now w s
       = (Ok tt,
          match first_due (config s) now l with
          | Ok (Some task) => with_thread (id task) w (set_db d' s)
          | _ => set_db d' s
          end).
Proof.
  destruct (get_tasks_cases s) as (l0 & d' & Hg & Hd & Hcase & Hh).
  exists d', (filter (fun t => status t = PENDING) l0).
  split; [exact Hd|]. split; [|split].
  - destruct Hcase as [-> | ->]; [left|right]; reflexivity.
  - intros Hf. rewrite (Hh Hf). split; [reflexivity|].
    revert Hg. unfold get_tasks, bind.
    rewrite (sched_load_tasks_healthy s Hf). intros E.
    apply (f_equal snd) in E. apply (f_equal db) in E. symmetry. exact E.
  - unfold _check_and_execute_tasks, try_except, bind. rewrite Hg.
    cbn [pending]. rewrite scan_pending_first_due.
    change (config (set_db d' s)) with (config s).
    destruct (first_due (config s) now _) as [[task|]|e]; reflexivity.
Qed.





(* ===================================================================== *)
(** * The claims *)
(* ===================================================================== *)

(** ** C1: the counts of a finished task *)

(** C1, as amended. A run of [execute_task] on a stored task whose
    [workflow_count] is not negative, with no exception leaving the loop,
    keeps the task's [workflow_count] and leaves the row as it was, or
    marked Running, or Completed (no error) or Failed (some error) with
    [success_count + error_count] equal to [workflow_count]; when the calls
    to the store succeed it is the last. *)
Theorem execute_task_counts s task_id w r :
  scheduled_tasks (disk (db s)) !! task_id = Some r ->
  0 <= col_workflow_count r ->
  (forall i e, (i < Z.to_nat (col_workflow_count r))%nat -> outcome w i <> Escapes e) ->
  exists r',
    scheduled_tasks (disk (db (snd (execute_task task_id w s)))) !! task_id = Some r'
    /\ col_workflow_count r' = col_workflow_count r
    /\ (r' = r
        \/ r' = updated_row task_id r RUNNING no_kwargs (started w)
        \/ (col_status r' = (if col_error_count r' =? 0 then COMPLETED else FAILED)
            /\ col_success_count r' + col_error_count r' = col_workflow_count r'))
    /\ (faults (db s) = [] ->
        col_status r' = (if col_error_count r' =? 0 then COMPLETED else FAILED)
        /\ col_success_count r' + col_error_count r' = col_workflow_count r').
Proof.
  intros Hr Hwc Hesc.
  destruct (execute_task_outcomes s task_id w r Hr Hwc Hesc)
    as (r' & Hr' & Hwc' & Hcases).
  exists r'. split; [exact Hr'|]. split; [exact Hwc'|]. split; [exact Hcases|].
  intros Hf.
  destruct (execute_task_completes s task_id w r Hf Hr Hwc Hesc)
    as (r'' & Hr'' & Hst & Hsum & _).
  rewrite Hr' in Hr''. injection Hr'' as <-. split; assumption.
Qed.

Lemma execute_task_counts_witness :
  exists r',
    scheduled_tasks
      (disk (db (snd (execute_task "task_20240502_0200" Sample.second_fails
                        (Sample.idle (Sample.healthy (Sample.one_task PENDING 3)))))))
      !! "task_20240502_0200" = Some r'
    /\ col_workflow_count r' = col_workflow_count (Sample.a_row PENDING 3)
    /\ (r' = Sample.a_row PENDING 3
        \/ r' = updated_row "task_20240502_0200" (Sample.a_row PENDING 3) RUNNING
                  no_kwargs (started Sample.second_fails)
        \/ (col_status r' = (if col_error_count r' =? 0 then COMPLETED else FAILED)
            /\ col_success_count r' + col_error_count r' = col_workflow_count r'))
    /\ (faults (db (Sample.idle (Sample.healthy (Sample.one_task PENDING 3)))) = [] ->
        col_status r' = (if col_error_count r' =? 0 then COMPLETED else FAILED)
        /\ col_success_count r' + col_error_count r' = col_workflow_count r').
Proof.
  apply (execute_task_counts
           (Sample.idle (Sample.healthy (Sample.one_task PENDING 3)))
           "task_20240502_0200" Sample.second_fails (Sample.a_row PENDING 3)).
  - vm_compute. reflexivity.
  - simpl. lia.
  - intros i e _. simpl. destruct (Nat.eqb i 1); discriminate.
Defined.

(** C1 fails as stated: a task of three iterations whose first iteration
    lets an exception out of the loop is stored Failed with both counts 0. *)
Lemma execute_task_escape_loses_counts :
  exists r',
    scheduled_tasks
      (disk (db (snd (execute_task "task_20240502_0200" Sample.first_escapes
                        (Sample.idle (Sample.healthy (Sample.one_task PENDING 3)))))))
      !! "task_20240502_0200" = Some r'
    /\ col_status r' = FAILED
    /\ col_workflow_count r' = 3
    /\ col_success_count r' + col_error_count r' <> col_workflow_count r'.
Proof.
  eexists. split; [vm_compute; reflexivity|].
  repeat split. discriminate.
Qed.

(** ** C2: cancelling a task that is not Pending *)

(** C2, as amended. [cancel_task] on the id of a stored task, whatever
    its status, returns normally and is not rejected: unless a call to the
    store fails, which leaves the tables as they were, it stores the status
    Cancelled, every other column of the row and every other row being left
    as they were. *)
Theorem cancel_task_overwrites_status s task_id now r :
  scheduled_tasks (disk (db s)) !! task_id = Some r ->
  fst (cancel_task task_id now s) = Ok tt
  /\ (scheduled_tasks (disk (db (snd (cancel_task task_id now s))))
      = scheduled_tasks (disk (db s))
      \/ scheduled_tasks (disk (db (snd (cancel_task task_id now s))))
         = <[task_id := set_col_status CANCELLED r]> (scheduled_tasks (disk (db s))))
  /\ (faults (db s) = [] ->
      scheduled_tasks (disk (db (snd (cancel_task task_id now s))))
      = <[task_id := set_col_status CANCELLED r]> (scheduled_tasks (disk (db s)))).
Proof.
  intros Hr. unfold cancel_task. split; [|split].
  - destruct (update_task_status_cases task_id CANCELLED no_kwargs now s)
      as (d' & -> & _). reflexivity.
  - destruct (update_task_status_cases task_id CANCELLED no_kwargs now s)
      as (d' & -> & [Hd | (r0 & Hr0 & Hd)]); cbn [snd db set_db]; rewrite Hd.
    + left. reflexivity.
    + right. rewrite Hr in Hr0. injection Hr0 as <-. reflexivity.
  - intros Hf. rewrite (update_task_status_healthy _ _ _ _ _ _ Hf Hr).
    reflexivity.
Qed.

Lemma cancel_task_overwrites_status_witness :
  scheduled_tasks
    (disk (db (snd (cancel_task "task_20240502_0200" Sample.at_21_00_00
                      (Sample.idle (Sample.healthy (Sample.one_task FAILED 3)))))))
  = <["task_20240502_0200" := set_col_status CANCELLED (Sample.a_row FAILED 3)]>
      (scheduled_tasks (disk (db (Sample.idle
         (Sample.healthy (Sample.one_task FAILED 3)))))).
Proof.
  apply (cancel_task_overwrites_status
           (Sample.idle (Sample.healthy (Sample.one_task FAILED 3)))
           "task_20240502_0200" Sample.at_21_00_00 (Sample.a_row FAILED 3)).
  - vm_compute. reflexivity.
  - reflexivity.
Defined.

(** C2 fails as stated: [cancel_task] on a Running task is not rejected,
    the stored status becomes Cancelled. *)
Lemma cancel_task_cancels_running_task :
  col_status <$>
    scheduled_tasks (Sample.one_task RUNNING 3) !! "task_20240502_0200"
  = Some RUNNING
  /\ col_status <$>
       scheduled_tasks
         (disk (db (snd (cancel_task "task_20240502_0200" Sample.at_21_00_00
                           (Sample.idle (Sample.healthy (Sample.one_task RUNNING 3)))))))
       !! "task_20240502_0200"
     = Some CANCELLED.
Proof. split; vm_compute; reflexivity. Qed.

(** ** C3: the terminal states *)

(** C3, as amended. Completed, Failed and Cancelled are not absorbing.
    One check of the polling loop returns normally, writes nothing to the
    tables and starts at most one thread, for a task it has read as Pending;
    that is the only guard. The operations that write look at no status: for
    a stored task in any state, when sqlite3 answers, [update_task_status]
    stores the status it is given and [cancel_task] stores Cancelled; a run
    of [execute_task], called directly or by a thread when it gets to run
    (the thread [execute_task_immediately] starts is one), stores the status
    its own loop ends with, which is Completed or Failed. *)
Theorem terminal_states_are_overwritten now w s k r :
  scheduled_tasks (disk (db s)) !! k = Some r ->
  (exists s',
      _check_and_execute_tasks now w s = (Ok tt, s')
      /\ disk (db s') = disk (db s)
      /\ (threads s' = threads s
          \/ exists t,
               threads s' = threads s ++ [mk_thread (id t) w]
               /\ scheduled_tasks (disk (db s)) !! id t = Some (row_of t)
               /\ status t = PENDING))
  /\ (faults (db s) = [] ->
      (forall st kw t,
          col_status <$>
            scheduled_tasks (disk (db (snd (update_task_status k st kw t s)))) !! k
          = Some st)
      /\ (forall t,
            col_status <$>
              scheduled_tasks (disk (db (snd (cancel_task k t s)))) !! k
            = Some CANCELLED)
      /\ (forall w',
            col_status <$>
              scheduled_tasks (disk (db (snd (execute_task k w' s)))) !! k
            = Some (status_of_run w' (col_workflow_count r)))
      /\ (forall i w',
            threads s !! i = Some (mk_thread k w') ->
            col_status <$>
              scheduled_tasks (disk (db (snd (run_thread i s)))) !! k
            = Some (status_of_run w' (col_workflow_count r)))
      /\ (forall w',
            execute_task_immediately k w' s = (Ok tt, with_thread k w' s)
            /\ col_status <$>
                 scheduled_tasks
                   (disk (db (snd (run_thread (length (threads s))
                                     (with_thread k w' s))))) !! k
               = Some (status_of_run w' (col_workflow_count r))))
  /\ (forall w' n, status_of_run w' n = COMPLETED \/ status_of_run w' n = FAILED).
Proof.
  intros Hr. split; [|split].
  - destruct (_check_and_execute_tasks_cases now w s)
      as (d' & l & Hd & Hl & _ & ->).
    eexists. split; [reflexivity|].
    destruct (first_due (config s) now l) as [[task|]|e] eqn:Hfirst;
      (split; [exact Hd|]); try (left; reflexivity).
    right. exists task. split; [reflexivity|].
    apply first_due_Some in Hfirst as [Hin _].
    destruct Hl as [-> | ->]; [inversion Hin|].
    apply pending_in_store_stored in Hin as [Hst Hrow]. split; assumption.
  - intros Hf.
    assert (Hrun : forall w' s0,
               faults (db s0) = [] ->
               scheduled_tasks (disk (db s0)) !! k = Some r ->
               col_status <$>
                 scheduled_tasks (disk (db (snd (execute_task k w' s0)))) !! k
               = Some (status_of_run w' (col_workflow_count r))).
    { intros w' s0 Hf0 Hr0. rewrite (execute_task_healthy s0 k w' r Hf0 Hr0).
      cbn [snd db set_db set_current_task_id disk with_tasks scheduled_tasks].
      rewrite lookup_insert_eq. cbn [fmap option_fmap option_map].
      rewrite final_row_status. reflexivity. }
    assert (Hupd : forall st kw t,
               col_status <$>
                 scheduled_tasks
                   (disk (db (snd (update_task_status k st kw t s)))) !! k
               = Some st).
    { intros st kw t. rewrite (update_task_status_healthy _ _ _ _ _ _ Hf Hr).
      cbn [snd db set_db disk with_tasks scheduled_tasks].
      rewrite lookup_insert_eq. destruct st; reflexivity. }
    split; [exact Hupd|]. split; [intros t; apply Hupd|].
    split; [intros w'; apply Hrun; assumption|]. split.
    + intros i w' Hi. rewrite (run_thread_Some _ _ _ Hi). cbn [snd].
      apply Hrun; assumption.
    + intros w'. split; [reflexivity|].
      rewrite run_thread_at_once. cbn [snd]. apply Hrun; assumption.
  - intros w' n. unfold status_of_run.
    destruct (run_iterations _ _ _) as [c|e]; [|right; reflexivity].
    destruct (n_error c =? 0); [left|right]; reflexivity.
Qed.

Lemma terminal_states_are_overwritten_witness :
  (exists s',
      _check_and_execute_tasks Sample.at_21_00_00 Sample.second_fails
        (Sample.idle (Sample.healthy Sample.two_tasks)) = (Ok tt, s')
      /\ disk (db s') = Sample.two_tasks
      /\ threads s' = [mk_thread "test_20240501_180110" Sample.second_fails])
  /\ col_status <$>
       scheduled_tasks
         (disk (db (snd (update_task_status "task_20240502_0200" RUNNING no_kwargs
                           Sample.at_21_00_00
                           (Sample.idle (Sample.healthy Sample.two_tasks))))))
         !! "task_20240502_0200"
     = Some RUNNING
  /\ col_status <$>
       scheduled_tasks
         (disk (db (snd (execute_task "task_20240502_0200" Sample.second_fails
                           (Sample.idle (Sample.healthy Sample.two_tasks))))))
         !! "task_20240502_0200"
     = Some FAILED.
Proof.
  destruct (terminal_states_are_overwritten Sample.at_21_00_00 Sample.second_fails
              (Sample.idle (Sample.healthy Sample.two_tasks))
              "task_20240502_0200" (Sample.a_row CANCELLED 3))
    as (Hcheck & Hwrite & _).
  - vm_compute. reflexivity.
  - destruct (Hwrite eq_refl) as (Hupd & _ & Hrun & _).
    split; [|split; [apply Hupd | apply Hrun]].
    destruct Hcheck as (s' & Heq & Hdisk & _).
    exists s'. split; [exact Heq|]. split; [exact Hdisk|].
    vm_compute in Heq. injection Heq as <-. reflexivity.
Defined.

(** C3 fails as stated. A Completed task is taken to Failed by
    [execute_task], and by the thread of [execute_task_immediately] when it
    runs, and to Cancelled by [cancel_task]. And the polling dispatch does
    not keep a terminal state either: the thread it starts for a Pending
    task takes the task out of Cancelled when the task is cancelled before
    the thread runs. *)
Lemma completed_task_leaves_completed :
  col_status <$>
    scheduled_tasks
      (disk (db (snd (execute_task "task_20240502_0200" Sample.second_fails
                        (Sample.idle (Sample.healthy (Sample.one_task COMPLETED 3)))))))
      !! "task_20240502_0200"
  = Some FAILED
  /\ col_status <$>
       scheduled_tasks
         (disk (db (snd ((execute_task_immediately "task_20240502_0200"
                            Sample.second_fails ;;
                          run_thread 0)
                           (Sample.idle (Sample.healthy (Sample.one_task COMPLETED 3)))))))
         !! "task_20240502_0200"
     = Some FAILED
  /\ col_status <$>
       scheduled_tasks
         (disk (db (snd (cancel_task "task_20240502_0200" Sample.at_21_00_00
                           (Sample.idle (Sample.healthy (Sample.one_task COMPLETED 3)))))))
         !! "task_20240502_0200"
     = Some CANCELLED
  /\ col_status <$>
       scheduled_tasks
         (disk (db (snd ((_check_and_execute_tasks Sample.a_month_later
                            Sample.second_fails ;;
                          cancel_task "task_20240502_0200" Sample.a_month_later)
                           (Sample.idle (Sample.healthy (Sample.one_task PENDING 3)))))))
         !! "task_20240502_0200"
     = Some CANCELLED
  /\ col_status <$>
       scheduled_tasks
         (disk (db (snd ((_check_and_execute_tasks Sample.a_month_later
                            Sample.second_fails ;;
                          cancel_task "task_20240502_0200" Sample.a_month_later ;;
                          run_thread 0)
                           (Sample.idle (Sample.healthy (Sample.one_task PENDING 3)))))))
         !! "task_20240502_0200"
     = Some FAILED.
Proof. repeat split; vm_compute; reflexivity. Qed.

(** ** C4: the due time of a Pending task *)

(** C4. When the store answers, the dispatch starts a worker for the first
    Pending task, in load order, whose due time has come, the due time being
    the specification's: [created_at] plus one minute for an id that starts
    with [test_], [created_at] plus [auto_execute_delay_hours] otherwise,
    with the configuration the scheduler holds when it scans; a task is due
    when the instant of now is at least the instant of its creation plus
    that delay. After [update_config] that configuration has the new delay,
    whenever the tasks were created: the due time of a task made by
    [create_daily_task] under one configuration is its creation time plus
    the delay of the configuration it is evaluated under, and that of a task
    made by [create_immediate_task] is its creation time plus one minute.
    The worker is a thread: the dispatch has started it when it returns, and
    the thread, were it to run at once, does what [execute_task] does for
    that task. *)
Theorem dispatch_due_time_follows_kind_and_config s now w :
  (faults (db s) = [] ->
   _check_and_execute_tasks now w s
   = (Ok tt,
      match first_due (config s) now (pending_in_store (disk (db s))) with
      | Ok (Some task) => with_thread (id task) w s
      | Ok None => s
      | Raise _ => s
      end))
  /\ (forall task created,
        Datetime.fromisoformat (created_at task) = Ok created ->
        due_time_spec (config s) task
        = if String.prefix "test_" (id task)
          then Datetime.add created (60 * Datetime.US_PER_SECOND)
          else res_bind (Datetime.timedelta 0 (auto_execute_delay_hours (config s)) 0)
                        (Datetime.add created))
  /\ (forall task created due now',
        Datetime.fromisoformat (created_at task) = Ok created ->
        due_time_spec (config s) task = Ok due ->
        Datetime.valid now' = true ->
        Datetime.to_us due = Datetime.to_us created + offset_us (config s) task
        /\ Datetime.ge now' due
           = (Datetime.to_us created + offset_us (config s) task
              <=? Datetime.to_us now'))
  /\ (forall h t0,
        auto_execute_delay_hours
          (config (snd (update_config [kw_auto_execute_delay_hours h] t0 s))) = h)
  /\ (forall wc n c task s' cfg,
        Datetime.valid c = true ->
        create_daily_task wc n c s = (Ok task, s') ->
        due_time_spec cfg task
        = res_bind (Datetime.timedelta 0 (auto_execute_delay_hours cfg) 0)
                   (Datetime.add c))
  /\ (forall wc n c task s' cfg,
        Datetime.valid c = true ->
        create_immediate_task wc n c s = (Ok task, s') ->
        due_time_spec cfg task = Datetime.add c (60 * Datetime.US_PER_SECOND))
  /\ (forall task_id,
        run_thread (length (threads s)) (with_thread task_id w s)
        = (Ok tt, snd (execute_task task_id w s))).
Proof.
  split; [|split; [|split; [|split; [|split; [|split]]]]].
  - intros Hf.
    unfold _check_and_execute_tasks, try_except, bind at 1, get_tasks, bind at 1.
    rewrite (sched_load_tasks_healthy _ Hf). cbn beta iota.
    unfold ret at 1. cbn beta iota. cbn [pending].
    rewrite scan_pending_first_due. unfold pending_in_store.
    destruct (first_due _ _ _) as [[task|]|e]; reflexivity.
  - intros task created Hc. unfold due_time_spec, kind_of_id. rewrite Hc. simpl.
    destruct (String.prefix "test_" (id task)); reflexivity.
  - intros task created due now' Hc Hdue Hnow.
    exact (due_time_spec_instant _ _ _ _ _ Hc Hdue Hnow).
  - intros h t0. rewrite update_config_config. reflexivity.
  - intros wc n c task s' cfg Hv H.
    apply create_daily_task_inv in H as (e & _ & Hid & Hc & _).
    unfold due_time_spec, kind_of_id.
    rewrite Hc, (fromisoformat_isoformat _ Hv), Hid. reflexivity.
  - intros wc n c task s' cfg Hv H.
    apply create_immediate_task_inv in H as (e & _ & Hid & Hc & _).
    unfold due_time_spec, kind_of_id.
    rewrite Hc, (fromisoformat_isoformat _ Hv), Hid. reflexivity.
  - intros task_id. apply run_thread_at_once.
Qed.

Lemma dispatch_due_time_follows_kind_and_config_witness :
  _check_and_execute_tasks Sample.at_21_00_00 Sample.second_fails
    (snd (update_config [kw_auto_execute_delay_hours 2] Sample.at_18_00_50
            (Sample.idle (Sample.healthy (Sample.one_task PENDING 3)))))
  = (Ok tt,
     with_thread "task_20240502_0200" Sample.second_fails
       (snd (update_config [kw_auto_execute_delay_hours 2] Sample.at_18_00_50
               (Sample.idle (Sample.healthy (Sample.one_task PENDING 3))))))
  /\ due_time_spec (config (Sample.idle (Sample.healthy Sample.no_tables)))
       Sample.an_immediate
     = Ok (Datetime.mk_datetime 2024 5 1 18 1 10 250)
  /\ due_time_spec (setattr default_config (kw_auto_execute_delay_hours 2))
       Sample.first_daily
     = Ok (Datetime.mk_datetime 2024 5 1 20 0 10 250).
Proof.
  split; [|split].
  - rewrite (proj1 (dispatch_due_time_follows_kind_and_config
                      (snd (update_config [kw_auto_execute_delay_hours 2]
                              Sample.at_18_00_50
                              (Sample.idle (Sample.healthy (Sample.one_task PENDING 3)))))
                      Sample.at_21_00_00 Sample.second_fails) eq_refl).
    vm_compute. reflexivity.
  - rewrite (proj1 (proj2 (dispatch_due_time_follows_kind_and_config
                             (Sample.idle (Sample.healthy Sample.no_tables))
                             Sample.at_21_00_00 Sample.second_fails))
               Sample.an_immediate
               (Datetime.mk_datetime 2024 5 1 18 0 10 250) eq_refl).
    vm_compute. reflexivity.
  - rewrite (proj1 (proj2 (proj2 (proj2 (proj2 (dispatch_due_time_follows_kind_and_config
                             (Sample.idle (Sample.healthy Sample.no_tables))
                             Sample.at_21_00_00 Sample.second_fails)))))
               None Sample.at_18_00_10 Sample.at_18_00_10 Sample.first_daily
               (snd (create_daily_task None Sample.at_18_00_10 Sample.at_18_00_10
                       (Sample.idle (Sample.healthy Sample.no_tables))))
               (setattr default_config (kw_auto_execute_delay_hours 2))
               eq_refl).
    + vm_compute. reflexivity.
    + vm_compute. reflexivity.
Defined.

(** The scenario of the specification: a normal task created three hours
    ago is not due under a delay of 8 hours, and is dispatched at once when
    the delay becomes 2 hours; the thread started then runs the task. *)
Lemma config_change_is_retroactive :
  threads
    (snd (_check_and_execute_tasks Sample.at_21_00_00 Sample.second_fails
            (Sample.idle (Sample.healthy (Sample.one_task PENDING 3)))))
  = []
  /\ threads
       (snd (_check_and_execute_tasks Sample.at_21_00_00 Sample.second_fails
               (snd (update_config [kw_auto_execute_delay_hours 2]
                       Sample.at_18_00_50
                       (Sample.idle (Sample.healthy (Sample.one_task PENDING 3)))))))
     = [mk_thread "task_20240502_0200" Sample.second_fails]
  /\ col_status <$>
       scheduled_tasks
         (disk (db (snd ((_check_and_execute_tasks Sample.at_21_00_00
                            Sample.second_fails ;;
                          run_thread 0)
                           (snd (update_config [kw_auto_execute_delay_hours 2]
                                   Sample.at_18_00_50
                                   (Sample.idle (Sample.healthy
                                      (Sample.one_task PENDING 3)))))))))
         !! "task_20240502_0200"
     = Some FAILED.
Proof. repeat split; vm_compute; reflexivity. Qed.

(** ** C5: retention *)

(** C5. Whatever the store does, [delete_old_tasks] leaves every Pending
    and every Running task in place, and changes no row it keeps. When the
    calls to the store succeed it removes exactly the rows in a terminal
    state whose [completed_at], or [created_at] when [completed_at] is
    NULL, is below the ISO text of now minus [days], and returns how many
    it removed; for a stamp that is the ISO text of a datetime, below means
    more than [days] days before now. *)
Theorem delete_old_tasks_retention days now db :
  (forall k r,
      scheduled_tasks (disk db) !! k = Some r ->
      col_status r = PENDING \/ col_status r = RUNNING ->
      scheduled_tasks (disk (snd (DatabaseManager.delete_old_tasks days now db))) !! k
      = Some r)
  /\ (forall k r,
        scheduled_tasks (disk (snd (DatabaseManager.delete_old_tasks days now db))) !! k
        = Some r ->
        scheduled_tasks (disk db) !! k = Some r)
  /\ (forall delta cutoff,
        faults db = [] ->
        Datetime.timedelta days 0 0 = Ok delta ->
        Datetime.sub now delta = Ok cutoff ->
        (forall k,
            scheduled_tasks
              (disk (snd (DatabaseManager.delete_old_tasks days now db))) !! k
            = match scheduled_tasks (disk db) !! k with
              | Some r => if expired (Datetime.isoformat cutoff) r then None
                          else Some r
              | None => None
              end)
        /\ fst (DatabaseManager.delete_old_tasks days now db)
           = Ok (Z.of_nat (size (scheduled_tasks (disk db)))
                 - Z.of_nat (size (scheduled_tasks
                      (disk (snd (DatabaseManager.delete_old_tasks days now db))))))
        /\ (forall r t,
              Datetime.valid t = true ->
              retention_stamp r = Datetime.isoformat t ->
              expired (Datetime.isoformat cutoff) r
              = terminal (col_status r)
                && (Datetime.to_us t
                    <? Datetime.to_us now - days * Datetime.US_PER_DAY))).
Proof.
  split; [|split].
  - intros k r Hr Hst.
    destruct (delete_old_tasks_cases days now db)
      as (n & fs & d' & E & [[_ Hd'] | (delta & cutoff & _ & _ & _ & Hd')]);
      rewrite E; cbn [snd disk]; rewrite Hd'; [exact Hr|].
    rewrite lookup_delete_old, Hr. unfold expired.
    destruct Hst as [-> | ->]; reflexivity.
  - intros k r.
    destruct (delete_old_tasks_cases days now db)
      as (n & fs & d' & E & [[_ Hd'] | (delta & cutoff & _ & _ & _ & Hd')]);
      rewrite E; cbn [snd disk]; rewrite Hd'; [trivial|].
    rewrite lookup_delete_old.
    destruct (scheduled_tasks (disk db) !! k) as [r0|]; [|discriminate].
    destruct (expired _ r0); [discriminate | trivial].
  - intros delta cutoff Hf Hd Hc.
    rewrite (delete_old_tasks_healthy _ _ _ _ _ Hf Hd Hc).
    cbn [fst snd disk]. split; [|split].
    + intros k. apply lookup_delete_old.
    + exact (f_equal Ok (rowcount_delete_old _ _)).
    + intros r t Ht Hstamp.
      rewrite (expired_isoformat r t cutoff Ht (sub_valid _ _ _ Hc) Hstamp).
      rewrite (sub_to_us _ _ _ Hc). apply timedelta_us in Hd.
      replace delta with (days * Datetime.US_PER_DAY)
        by (rewrite Hd; unfold Datetime.US_PER_DAY; lia).
      reflexivity.
Qed.

Lemma delete_old_tasks_retention_witness :
  scheduled_tasks
    (disk (snd (DatabaseManager.delete_old_tasks 30 Sample.a_month_later
                  (Sample.healthy (Sample.one_task RUNNING 3)))))
    !! "task_20240502_0200"
  = Some (Sample.a_row RUNNING 3)
  /\ scheduled_tasks
       (disk (snd (DatabaseManager.delete_old_tasks 30 Sample.a_month_later
                     (Sample.healthy (Sample.one_task CANCELLED 3)))))
       !! "task_20240502_0200"
     = None
  /\ fst (DatabaseManager.delete_old_tasks 30 Sample.a_month_later
            (Sample.healthy (Sample.one_task CANCELLED 3)))
     = Ok 1.
Proof.
  split; [|split].
  - apply (proj1 (delete_old_tasks_retention 30 Sample.a_month_later
                    (Sample.healthy (Sample.one_task RUNNING 3)))).
    + vm_compute. reflexivity.
    + right. reflexivity.
  - rewrite (proj1 (proj2 (proj2 (delete_old_tasks_retention 30
                                    Sample.a_month_later
                                    (Sample.healthy (Sample.one_task CANCELLED 3))))
                      (30 * 86400 * 1000000)
                      (Datetime.mk_datetime 2024 5 16 9 0 0 0)
                      eq_refl eq_refl eq_refl)).
    vm_compute. reflexivity.
  - rewrite (proj1 (proj2 (proj2 (proj2 (delete_old_tasks_retention 30
                                    Sample.a_month_later
                                    (Sample.healthy (Sample.one_task CANCELLED 3))))
                      (30 * 86400 * 1000000)
                      (Datetime.mk_datetime 2024 5 16 9 0 0 0)
                      eq_refl eq_refl eq_refl))).
    vm_compute. reflexivity.
Defined.

(** ** C6: storage failures *)

(** C6, as amended. When one of the sqlite3 calls made by a method of the
    store other than [init_database] fails, the method returns its default
    and the tables stay as they were: [load_tasks] the empty list,
    [get_task_by_id] None, [get_task_statistics] zero counts, [save_task],
    [delete_task] and [save_config] false, [delete_old_tasks] 0,
    [load_config] the default configuration. And the polling loop receives
    no exception, whatever the store does. *)
Theorem storage_failures_become_defaults db e :
  (first_fault 2 (faults db) = Some e ->
     fst (DatabaseManager.load_tasks db) = Ok []
     /\ disk (snd (DatabaseManager.load_tasks db)) = disk db)
  /\ (forall now, first_fault 4 (faults db) = Some e ->
        fst (DatabaseManager.get_task_statistics now db)
        = Ok {| total_tasks := 0; status_counts := ∅; recent_tasks := 0 |}
        /\ disk (snd (DatabaseManager.get_task_statistics now db)) = disk db)
  /\ (forall task, first_fault 3 (faults db) = Some e ->
        fst (save_task task db) = Ok false
        /\ disk (snd (save_task task db)) = disk db)
  /\ (forall task_id, first_fault 3 (faults db) = Some e ->
        fst (DatabaseManager.delete_task task_id db) = Ok false
        /\ disk (snd (DatabaseManager.delete_task task_id db)) = disk db)
  /\ (first_fault 2 (faults db) = Some e ->
        fst (DatabaseManager.load_config db) = Ok default_config
        /\ disk (snd (DatabaseManager.load_config db)) = disk db)
  /\ (forall task_id, first_fault 2 (faults db) = Some e ->
        fst (get_task_by_id task_id db) = Ok None
        /\ disk (snd (get_task_by_id task_id db)) = disk db)
  /\ (forall days now, first_fault 3 (faults db) = Some e ->
        fst (DatabaseManager.delete_old_tasks days now db) = Ok 0
        /\ disk (snd (DatabaseManager.delete_old_tasks days now db)) = disk db)
  /\ (forall config now, first_fault 3 (faults db) = Some e ->
        fst (DatabaseManager.save_config config now db) = Ok false
        /\ disk (snd (DatabaseManager.save_config config now db)) = disk db)
  /\ (forall ticks is_running current_task_id config jobs threads,
        fst (_run_scheduler ticks
               {| is_running := is_running; current_task_id := current_task_id;
                  config := config; jobs := jobs; db := db;
                  threads := threads |}) = Ok tt).
Proof.
  destruct db as [d fs]. cbn [faults disk].
  repeat split; try (intros; apply _run_scheduler_ok).
  all: try intros x; try intros y; try intros H; unfold_db; step.
  all: try (destruct (Datetime.timedelta _ _ _); [destruct (Datetime.sub _ _)|];
            step).
  all: split_faults fs; cbn [first_fault] in *; try discriminate; try reflexivity.
  all: try (destruct (Datetime.timedelta _ _ _); [destruct (Datetime.sub _ _)|];
            reflexivity).
Qed.

Lemma storage_failures_become_defaults_witness :
  fst (DatabaseManager.load_tasks (Sample.locked (Sample.one_task PENDING 3)))
  = Ok []
  /\ fst (DatabaseManager.get_task_statistics Sample.at_21_00_00
            (Sample.locked (Sample.one_task PENDING 3)))
     = Ok {| total_tasks := 0; status_counts := ∅; recent_tasks := 0 |}
  /\ fst (save_task Sample.second_daily (Sample.locked (Sample.one_task PENDING 3)))
     = Ok false
  /\ fst (DatabaseManager.delete_task "task_20240502_0200"
            (Sample.locked (Sample.one_task PENDING 3)))
     = Ok false
  /\ fst (DatabaseManager.load_config (Sample.locked (Sample.one_task PENDING 3)))
     = Ok default_config.
Proof.
  destruct (storage_failures_become_defaults
              (Sample.locked (Sample.one_task PENDING 3)) "database is locked")
    as (H1 & H2 & H3 & H4 & H5 & _).
  split; [apply (H1 eq_refl)|].
  split; [apply (H2 Sample.at_21_00_00 eq_refl)|].
  split; [apply (H3 Sample.second_daily eq_refl)|].
  split; [apply (H4 "task_20240502_0200" eq_refl) | apply (H5 eq_refl)].
Defined.

(** C6 fails as stated: a sqlite3 failure inside [init_database] is not
    caught at the boundary of the store, its caller receives the
    exception. *)
Lemma init_database_failure_propagates :
  fst (init_database Sample.at_18_00_10 (Sample.locked Sample.no_tables))
  = Raise "database is locked".
Proof. reflexivity. Qed.

(** ** C7: saving twice *)

(** C7. For two tasks of one id, once [save_task] of the second has
    succeeded after a [save_task] of the first, the table is the original
    one with the second task's row under that id: the row read back is the
    second task, field for field. *)
Theorem save_task_full_overwrite db t1 t2 b1 db1 db2 :
  id t1 = id t2 ->
  save_task t1 db = (Ok b1, db1) ->
  save_task t2 db1 = (Ok true, db2) ->
  scheduled_tasks (disk db2) = <[id t2 := row_of t2]> (scheduled_tasks (disk db))
  /\ scheduled_tasks (disk db2) !! id t1 = Some (row_of t2)
  /\ task_of (id t1) (row_of t2) = t2
  /\ (faults db2 = [] -> fst (get_task_by_id (id t1) db2) = Ok (Some t2)).
Proof.
  intros Hid H1 H2.
  assert (Hback : task_of (id t1) (row_of t2) = t2)
    by (rewrite Hid; apply task_of_row_of).
  assert (Hd1 : scheduled_tasks (disk db1) = scheduled_tasks (disk db)
                \/ scheduled_tasks (disk db1)
                   = <[id t2 := row_of t1]> (scheduled_tasks (disk db))).
  { destruct (save_task_cases t1 db) as [[fs E] | [fs E]];
      rewrite E in H1; inversion H1; subst; simpl; [right | left]; try reflexivity.
    rewrite Hid. reflexivity. }
  assert (Hd2 : scheduled_tasks (disk db2)
                = <[id t2 := row_of t2]> (scheduled_tasks (disk db1))).
  { destruct (save_task_cases t2 db1) as [[fs E] | [fs E]];
      rewrite E in H2; inversion H2; subst; reflexivity. }
  assert (Htab : scheduled_tasks (disk db2)
                 = <[id t2 := row_of t2]> (scheduled_tasks (disk db))).
  { rewrite Hd2. destruct Hd1 as [-> | ->]; [reflexivity|].
    apply insert_insert_eq. }
  assert (Hlook : scheduled_tasks (disk db2) !! id t1 = Some (row_of t2)).
  { rewrite Htab, Hid. apply lookup_insert_eq. }
  repeat split; try assumption.
  intros Hf. rewrite (get_task_by_id_healthy _ _ Hf), Hlook. simpl.
  rewrite Hback. reflexivity.
Qed.

Lemma save_task_full_overwrite_witness :
  scheduled_tasks
    (disk (snd (save_task Sample.second_daily
                  (snd (save_task Sample.first_daily
                          (Sample.healthy Sample.no_tables))))))
  = <[id Sample.second_daily := row_of Sample.second_daily]>
      (scheduled_tasks (disk (Sample.healthy Sample.no_tables)))
  /\ scheduled_tasks
       (disk (snd (save_task Sample.second_daily
                     (snd (save_task Sample.first_daily
                             (Sample.healthy Sample.no_tables))))))
       !! id Sample.first_daily
     = Some (row_of Sample.second_daily)
  /\ task_of (id Sample.first_daily) (row_of Sample.second_daily)
     = Sample.second_daily
  /\ (faults (snd (save_task Sample.second_daily
                     (snd (save_task Sample.first_daily
                             (Sample.healthy Sample.no_tables))))) = [] ->
      fst (get_task_by_id (id Sample.first_daily)
             (snd (save_task Sample.second_daily
                     (snd (save_task Sample.first_daily
                             (Sample.healthy Sample.no_tables))))))
      = Ok (Some Sample.second_daily)).
Proof.
  apply (save_task_full_overwrite (Sample.healthy Sample.no_tables)
           Sample.first_daily Sample.second_daily true
           (snd (save_task Sample.first_daily (Sample.healthy Sample.no_tables)))
           (snd (save_task Sample.second_daily
                   (snd (save_task Sample.first_daily
                           (Sample.healthy Sample.no_tables)))))).
  - reflexivity.
  - vm_compute. reflexivity.
  - vm_compute. reflexivity.
Defined.

(** ** C8: the two timestamps *)

(** C8, as amended. A status update of a stored task either writes
    nothing (a call to the store failed) or writes the new status with
    [started_at] set exactly when the new status is Running, whatever the
    status was, and [completed_at] set exactly when the new status is
    Completed or Failed: an update to Cancelled or Pending writes neither
    timestamp. When the calls to the store succeed it is the latter. *)
Theorem update_task_status_timestamps s task_id st kw now r :
  scheduled_tasks (disk (db s)) !! task_id = Some r ->
  exists r',
    scheduled_tasks (disk (db (snd (update_task_status task_id st kw now s))))
      !! task_id = Some r'
    /\ (r' = r
        \/ (col_status r' = st
            /\ col_started_at r'
               = (if decide (st = RUNNING) then Some (Datetime.isoformat now)
                  else col_started_at r)
            /\ col_completed_at r'
               = (if decide (st = COMPLETED \/ st = FAILED)
                  then Some (Datetime.isoformat now) else col_completed_at r)))
    /\ (faults (db s) = [] ->
        col_status r' = st
        /\ col_started_at r'
           = (if decide (st = RUNNING) then Some (Datetime.isoformat now)
              else col_started_at r)
        /\ col_completed_at r'
           = (if decide (st = COMPLETED \/ st = FAILED)
              then Some (Datetime.isoformat now) else col_completed_at r)).
Proof.
  intros Hr.
  assert (Hnew : col_status (updated_row task_id r st kw now) = st
                 /\ col_started_at (updated_row task_id r st kw now)
                    = (if decide (st = RUNNING) then Some (Datetime.isoformat now)
                       else col_started_at r)
                 /\ col_completed_at (updated_row task_id r st kw now)
                    = (if decide (st = COMPLETED \/ st = FAILED)
                       then Some (Datetime.isoformat now) else col_completed_at r))
    by (destruct st; repeat split; reflexivity).
  destruct (faults (db s)) as [|f fs] eqn:Hf.
  - rewrite (update_task_status_healthy _ _ _ _ _ _ Hf Hr). cbn [snd db set_db disk].
    exists (updated_row task_id r st kw now).
    split; [apply lookup_insert_eq|].
    split; [right; exact Hnew | intros _; exact Hnew].
  - destruct (update_task_status_cases task_id st kw now s)
      as (d' & E & [Hd | (r0 & Hr0 & Hd)]);
      rewrite E; cbn [snd db set_db]; rewrite Hd.
    + exists r. split; [exact Hr|]. split; [left; reflexivity | discriminate].
    + rewrite Hr in Hr0. injection Hr0 as <-.
      exists (updated_row task_id r st kw now).
      split; [apply lookup_insert_eq|].
      split; [right; exact Hnew | discriminate].
Qed.

Lemma update_task_status_timestamps_witness :
  exists r',
    scheduled_tasks
      (disk (db (snd (update_task_status "task_20240502_0200" RUNNING no_kwargs
                        Sample.at_21_00_00
                        (Sample.idle (Sample.healthy (Sample.one_task COMPLETED 3)))))))
      !! "task_20240502_0200" = Some r'
    /\ (r' = Sample.a_row COMPLETED 3
        \/ (col_status r' = RUNNING
            /\ col_started_at r'
               = (if decide (RUNNING = RUNNING)
                  then Some (Datetime.isoformat Sample.at_21_00_00)
                  else col_started_at (Sample.a_row COMPLETED 3))
            /\ col_completed_at r'
               = (if decide (RUNNING = COMPLETED \/ RUNNING = FAILED)
                  then Some (Datetime.isoformat Sample.at_21_00_00)
                  else col_completed_at (Sample.a_row COMPLETED 3))))
    /\ (faults (db (Sample.idle (Sample.healthy (Sample.one_task COMPLETED 3)))) = [] ->
        col_status r' = RUNNING
        /\ col_started_at r'
           = (if decide (RUNNING = RUNNING)
              then Some (Datetime.isoformat Sample.at_21_00_00)
              else col_started_at (Sample.a_row COMPLETED 3))
        /\ col_completed_at r'
           = (if decide (RUNNING = COMPLETED \/ RUNNING = FAILED)
              then Some (Datetime.isoformat Sample.at_21_00_00)
              else col_completed_at (Sample.a_row COMPLETED 3))).
Proof.
  apply (update_task_status_timestamps
           (Sample.idle (Sample.healthy (Sample.one_task COMPLETED 3)))
           "task_20240502_0200" RUNNING no_kwargs Sample.at_21_00_00
           (Sample.a_row COMPLETED 3)).
  vm_compute. reflexivity.
Defined.

(** C8 fails as stated: cancelling a Pending task enters the terminal state
    Cancelled and records no [completed_at]; and an update to Running of a
    task that is Completed, not Pending, sets [started_at]. *)
Lemma cancel_records_no_completed_at :
  (fun r => (col_status r, col_completed_at r)) <$>
    scheduled_tasks
      (disk (db (snd (cancel_task "task_20240502_0200" Sample.at_21_00_00
                        (Sample.idle (Sample.healthy (Sample.one_task PENDING 3)))))))
      !! "task_20240502_0200"
  = Some (CANCELLED, None)
  /\ (fun r => (col_status r, col_started_at r)) <$>
       scheduled_tasks
         (disk (db (snd (update_task_status "task_20240502_0200" RUNNING no_kwargs
                           Sample.at_21_00_00
                           (Sample.idle (Sample.healthy
                              (Sample.one_task COMPLETED 3)))))))
         !! "task_20240502_0200"
     = Some (RUNNING, Some "2024-05-01T21:00:00").
Proof. split; vm_compute; reflexivity. Qed.

(** ** C9: task ids *)

(** C9, as amended. Two tasks made by [create_daily_task] have one id
    exactly when their target execution times (the clock plus the delay)
    fall in one calendar minute, two made by [create_immediate_task] exactly
    when their targets (the clock plus one minute) fall in one calendar
    second, and a task of one kind never has the id of a task of the other.
    A creation that succeeds stores its task under its id in place of
    whatever record had that id. *)
Theorem task_ids_distinct_across_slots :
  (forall s1 s2 wc1 wc2 n1 c1 n2 c2 t1 t2 s1' s2',
      create_daily_task wc1 n1 c1 s1 = (Ok t1, s1') ->
      create_daily_task wc2 n2 c2 s2 = (Ok t2, s2') ->
      exists e1 e2,
        daily_target (config s1) n1 = Ok e1
        /\ daily_target (config s2) n2 = Ok e2
        /\ (id t1 = id t2
            <-> Datetime.minute_slot e1 = Datetime.minute_slot e2))
  /\ (forall s1 s2 wc1 wc2 n1 c1 n2 c2 t1 t2 s1' s2',
        create_immediate_task wc1 n1 c1 s1 = (Ok t1, s1') ->
        create_immediate_task wc2 n2 c2 s2 = (Ok t2, s2') ->
        exists e1 e2,
          immediate_target n1 = Ok e1
          /\ immediate_target n2 = Ok e2
          /\ (id t1 = id t2
              <-> Datetime.second_slot e1 = Datetime.second_slot e2))
  /\ (forall s1 s2 wc1 wc2 n1 c1 n2 c2 t1 t2 s1' s2',
        create_daily_task wc1 n1 c1 s1 = (Ok t1, s1') ->
        create_immediate_task wc2 n2 c2 s2 = (Ok t2, s2') ->
        id t1 <> id t2)
  /\ (forall s wc n c t s',
        create_daily_task wc n c s = (Ok t, s')
        \/ create_immediate_task wc n c s = (Ok t, s') ->
        scheduled_tasks (disk (db s'))
        = <[id t := row_of t]> (scheduled_tasks (disk (db s)))).
Proof.
  split; [|split; [|split]].
  - intros s1 s2 wc1 wc2 n1 c1 n2 c2 t1 t2 s1' s2' H1 H2.
    apply create_daily_task_inv in H1 as (e1 & He1 & Hid1 & _).
    apply create_daily_task_inv in H2 as (e2 & He2 & Hid2 & _).
    exists e1, e2. split; [exact He1|]. split; [exact He2|].
    rewrite Hid1, Hid2.
    apply daily_id_slot; eapply daily_target_printable; eassumption.
  - intros s1 s2 wc1 wc2 n1 c1 n2 c2 t1 t2 s1' s2' H1 H2.
    apply create_immediate_task_inv in H1 as (e1 & He1 & Hid1 & _).
    apply create_immediate_task_inv in H2 as (e2 & He2 & Hid2 & _).
    exists e1, e2. split; [exact He1|]. split; [exact He2|].
    rewrite Hid1, Hid2.
    apply immediate_id_slot; eapply immediate_target_printable; eassumption.
  - intros s1 s2 wc1 wc2 n1 c1 n2 c2 t1 t2 s1' s2' H1 H2.
    apply create_daily_task_inv in H1 as (e1 & He1 & Hid1 & _).
    apply create_immediate_task_inv in H2 as (e2 & He2 & Hid2 & _).
    rewrite Hid1, Hid2. discriminate.
  - intros s wc n c t s' [H | H].
    + apply create_daily_task_inv in H as (e & _ & _ & _ & H). exact H.
    + apply create_immediate_task_inv in H as (e & _ & _ & _ & H). exact H.
Qed.

Lemma task_ids_distinct_across_slots_witness :
  (exists e1 e2,
      daily_target (config (Sample.idle (Sample.healthy Sample.no_tables)))
        Sample.at_18_00_10 = Ok e1
      /\ daily_target (config (Sample.idle (Sample.healthy Sample.no_tables)))
           Sample.at_21_00_00 = Ok e2
      /\ (id Sample.first_daily = id Sample.later_daily
          <-> Datetime.minute_slot e1 = Datetime.minute_slot e2))
  /\ id Sample.first_daily <> id Sample.an_immediate.
Proof.
  split.
  - apply (proj1 task_ids_distinct_across_slots
             (Sample.idle (Sample.healthy Sample.no_tables))
             (Sample.idle (Sample.healthy Sample.no_tables))
             None (Some 70) Sample.at_18_00_10 Sample.at_18_00_10
             Sample.at_21_00_00 Sample.at_21_00_00
             Sample.first_daily Sample.later_daily
             (snd (create_daily_task None Sample.at_18_00_10 Sample.at_18_00_10
                     (Sample.idle (Sample.healthy Sample.no_tables))))
             (snd (create_daily_task (Some 70) Sample.at_21_00_00 Sample.at_21_00_00
                     (Sample.idle (Sample.healthy Sample.no_tables))))).
    + vm_compute. reflexivity.
    + vm_compute. reflexivity.
  - apply (proj1 (proj2 (proj2 task_ids_distinct_across_slots))
             (Sample.idle (Sample.healthy Sample.no_tables))
             (Sample.idle (Sample.healthy Sample.no_tables))
             None None Sample.at_18_00_10 Sample.at_18_00_10
             Sample.at_18_00_10 Sample.at_18_00_10
             Sample.first_daily Sample.an_immediate
             (snd (create_daily_task None Sample.at_18_00_10 Sample.at_18_00_10
                     (Sample.idle (Sample.healthy Sample.no_tables))))
             (snd (create_immediate_task None Sample.at_18_00_10 Sample.at_18_00_10
                     (Sample.idle (Sample.healthy Sample.no_tables))))).
    + vm_compute. reflexivity.
    + vm_compute. reflexivity.
Defined.

(** C9 fails as stated: two calls of [create_daily_task] forty seconds
    apart make two different tasks with one id, and the second replaces the
    record of the first. *)
Lemma two_daily_tasks_share_an_id :
  fst (create_daily_task None Sample.at_18_00_10 Sample.at_18_00_10
         (Sample.idle (Sample.healthy Sample.no_tables)))
  = Ok Sample.first_daily
  /\ fst (create_daily_task (Some 3) Sample.at_18_00_50 Sample.at_18_00_50
            (snd (create_daily_task None Sample.at_18_00_10 Sample.at_18_00_10
                    (Sample.idle (Sample.healthy Sample.no_tables)))))
     = Ok Sample.second_daily
  /\ Sample.first_daily <> Sample.second_daily
  /\ id Sample.first_daily = id Sample.second_daily
  /\ scheduled_tasks
       (disk (db (snd (create_daily_task (Some 3) Sample.at_18_00_50
                         Sample.at_18_00_50
                         (snd (create_daily_task None Sample.at_18_00_10
                                 Sample.at_18_00_10
                                 (Sample.idle (Sample.healthy Sample.no_tables))))))))
     = {[ "task_20240502_0200" := row_of Sample.second_daily ]}.
Proof.
  split; [vm_compute; reflexivity|].
  split; [vm_compute; reflexivity|].
  split; [discriminate|].
  split; [reflexivity|].
  vm_compute. reflexivity.
Qed.

(** ** C10: an id the store does not hold *)

(** C10. For an id that is not in the store, [update_task_status], and so
    [cancel_task], returns normally and leaves the tables as they were,
    whatever the store does. *)
Theorem update_task_status_unknown_id task_id st kw now s :
  scheduled_tasks (disk (db s)) !! task_id = None ->
  (fst (update_task_status task_id st kw now s) = Ok tt
   /\ disk (db (snd (update_task_status task_id st kw now s))) = disk (db s))
  /\ (fst (cancel_task task_id now s) = Ok tt
      /\ disk (db (snd (cancel_task task_id now s))) = disk (db s)).
Proof.
  intros Hnone.
  assert (Hany : forall st' kw',
             fst (update_task_status task_id st' kw' now s) = Ok tt
             /\ disk (db (snd (update_task_status task_id st' kw' now s)))
                = disk (db s)).
  { intros st' kw'.
    destruct (update_task_status_cases task_id st' kw' now s)
      as (d' & -> & [Hd | (r & Hr & _)]); simpl.
    - split; [reflexivity | exact Hd].
    - rewrite Hnone in Hr. discriminate. }
  split; [apply Hany | apply (Hany CANCELLED no_kwargs)].
Qed.

Lemma update_task_status_unknown_id_witness :
  (fst (update_task_status "test_20240501_180110" FAILED no_kwargs
          Sample.at_21_00_00 (Sample.idle (Sample.healthy (Sample.one_task PENDING 3))))
   = Ok tt
   /\ disk (db (snd (update_task_status "test_20240501_180110" FAILED no_kwargs
                       Sample.at_21_00_00
                       (Sample.idle (Sample.healthy (Sample.one_task PENDING 3))))))
      = disk (db (Sample.idle (Sample.healthy (Sample.one_task PENDING 3)))))
  /\ (fst (cancel_task "test_20240501_180110" Sample.at_21_00_00
             (Sample.idle (Sample.healthy (Sample.one_task PENDING 3))))
      = Ok tt
      /\ disk (db (snd (cancel_task "test_20240501_180110" Sample.at_21_00_00
                          (Sample.idle (Sample.healthy (Sample.one_task PENDING 3))))))
         = disk (db (Sample.idle (Sample.healthy (Sample.one_task PENDING 3))))).
Proof.
  apply (update_task_status_unknown_id "test_20240501_180110" FAILED no_kwargs
           Sample.at_21_00_00
           (Sample.idle (Sample.healthy (Sample.one_task PENDING 3)))).
  vm_compute. reflexivity.
Defined.

(* ===================================================================== *)
(** * Further properties of the store *)
(* ===================================================================== *)
















#[local] Instance created_desc_total : Total created_desc.
Proof.
  intros x y. unfold created_desc, text_le.
  destruct (String.leb_total (col_created_at (snd y)) (col_created_at (snd x)));
    auto.
Qed.

























(* ===================================================================== *)
(** * Further properties of the scheduler *)
(* ===================================================================== *)










(** ** Readings of the scheduler that the task operations leave alone *)

Section Frames.

Context {B : Type} (f : Scheduler -> B).
Hypothesis f_db : forall d s, f (set_db d s) = f s.
Hypothesis f_task : forall c s, f (set_current_task_id c s) = f s.
Hypothesis f_threads : forall l s, f (set_threads l s) = f s.

Lemma frames_ret {A} (a : A) : frames f (ret a).
Proof. intros s. reflexivity. Qed.

Lemma frames_raise {A} e : frames f (raise (A := A) e).
Proof. intros s. reflexivity. Qed.

Lemma frames_lift {A} (r : Res A) : frames f (lift r).
Proof. intros s. reflexivity. Qed.


Lemma frames_bind {A C} (m : M Scheduler A) (k : A -> M Scheduler C) :
  frames f m -> (forall a, frames f (k a)) -> frames f (bind m k).
Proof.
  intros Hm Hk s. unfold bind. specialize (Hm s).
  destruct (m s) as [[a|e] s']; simpl in *; [rewrite Hk|]; exact Hm.
Qed.




Lemma frames_on_db {A} (m : M Database A) : frames f (on_db m).
Proof. intros s. unfold on_db. destruct (m (db s)) as [r d]. apply f_db. Qed.








Lemma frames_create_immediate_task wc n c :
  frames f (create_immediate_task wc n c).
Proof.
  unfold create_immediate_task.
  apply frames_bind; [apply frames_lift|intros delta].
  apply frames_bind; [apply frames_lift|intros e].
  apply frames_bind; [apply frames_on_db|intros [|]];
    [apply frames_ret|apply frames_raise].
Qed.





End Frames.



















(** ** One run of the worker *)











(** ** One check of the polling loop *)











(* ===================================================================== *)
(** * Further properties: the task page and the result files *)
(* ===================================================================== *)











(* ===================================================================== *)
(** * Further properties: the random user configuration *)
(* ===================================================================== *)





















(* ===================================================================== *)
(** * Further properties: how the operations compose *)
(* ===================================================================== *)









(** ** Reading an income range *)








(** ** [int] on decimal digits *)








(** ** [replace] and [split] around decimal digits *)






